(** * proxy.c: a bidirectional pipe device

    A shallow embedding of the character-device callbacks of [proxy.c]
    (open, release, read, write, poll and the helper [is_full]) together
    with the properties of the two circular buffers, of admission and of
    the end-of-file protocol.

    Modelling conventions.
    - C [int] values are integers of [Z] reduced to 32 bits by [to_int];
      every [int] addition and subtraction of the source goes through
      [int_add] / [int_sub].
    - A [struct file *] is its address ([f_addr]) plus the [f_flags] word;
      the null pointer is address 0.
    - [struct cirbuf.buf] is [None] while the pointer is null and
      [Some bytes] once [kmalloc] returned a block.
    - The callbacks run one at a time: each one is a function from the
      device state to a result and the next device state.  The semaphore
      is therefore free whenever [proxy_open] / [proxy_release] start and
      [down_interruptible] takes it at once.  Wait queues carry no data;
      a call that reaches [wait_event_interruptible] with a false predicate
      has the outcome [Sleeps] and what follows the sleep is given by the
      [_wake] continuations.
    - User memory handed to read and write is valid for the requested
      length, so [copy_to_user] / [copy_from_user] only fail when the
      length they are given is negative. *)

From Stdlib Require Import ZArith Lia List.
From stdpp Require Import base tactics option list.
From Stdlib Require Import Init.Byte.
Import ListNotations.
Local Open Scope Z_scope.

(** ** Kernel constants used by the driver (asm-generic values) *)

Definition O_ACCMODE : Z := 3.
Definition O_RDONLY : Z := 0.
Definition O_WRONLY : Z := 1.
Definition O_RDWR : Z := 2.
Definition O_NONBLOCK : Z := 2048.

Definition POLLIN : Z := 1.
Definition POLLOUT : Z := 4.
Definition POLLRDNORM : Z := 64.
Definition POLLWRNORM : Z := 256.

Definition EWOULDBLOCK : Z := 11.
Definition ENOMEM : Z := 12.
Definition EFAULT : Z := 14.
Definition EBUSY : Z := 16.
Definition ERESTARTSYS : Z := 512.

(** ** 32-bit [int] arithmetic *)

Definition INT_MAX : Z := 2147483647.

(** Conversion to [int]: reduction modulo 2^32 into [-2^31, 2^31). *)
Definition to_int (z : Z) : Z := (z + 2147483648) mod 4294967296 - 2147483648.

Definition int_add (a b : Z) : Z := to_int (a + b).
Definition int_sub (a b : Z) : Z := to_int (a - b).

(** ** Data structures *)

(** [struct cirbuf]: the buffer and cursors of one direction. *)
Record cirbuf : Type := mkCirbuf {
  buf : option (list byte);   (* the circular buffer, None while null *)
  widx : Z;                   (* where to write the next character *)
  ridx : Z;                   (* where to read the next character *)
  cidx : Z                    (* file closed at this index, -1 while open *)
}.

(** [struct px]: one proxy device (one minor number). *)
Record px : Type := mkPx {
  minor : Z;
  ewbuf : cirbuf;
  webuf : cirbuf;
  nopen : Z;                  (* number of opens on this device *)
  east : Z;                   (* struct file * of the east side, 0 if none *)
  west : Z;                   (* struct file * of the west side, 0 if none *)
  eastaccmode : Z;
  westaccmode : Z
}.

(** The part of [struct file] the driver looks at. *)
Record file : Type := mkFile {
  f_addr : Z;
  f_flags : Z
}.

(** What a read or write call does: it returns a value, or it goes to
    sleep in [wait_event_interruptible]. *)
Inductive outcome : Type :=
  | Ret (ret : Z)
  | Sleeps.

(** How a sleep ends: a signal, or a wake-up of the queue. *)
Inductive wake : Type :=
  | Signal
  | WakeUp.

(** [pcbuffer] points to one of the two buffers of the device. *)
Inductive direction : Type :=
  | EW
  | WE.

Definition set_buf (b : cirbuf) (m : option (list byte)) : cirbuf :=
  mkCirbuf m (widx b) (ridx b) (cidx b).
Definition set_widx (b : cirbuf) (v : Z) : cirbuf :=
  mkCirbuf (buf b) v (ridx b) (cidx b).
Definition set_ridx (b : cirbuf) (v : Z) : cirbuf :=
  mkCirbuf (buf b) (widx b) v (cidx b).
Definition set_cidx (b : cirbuf) (v : Z) : cirbuf :=
  mkCirbuf (buf b) (widx b) (ridx b) v.

Definition set_ewbuf (d : px) (b : cirbuf) : px :=
  mkPx (minor d) b (webuf d) (nopen d) (east d) (west d)
       (eastaccmode d) (westaccmode d).
Definition set_webuf (d : px) (b : cirbuf) : px :=
  mkPx (minor d) (ewbuf d) b (nopen d) (east d) (west d)
       (eastaccmode d) (westaccmode d).
Definition set_nopen (d : px) (n : Z) : px :=
  mkPx (minor d) (ewbuf d) (webuf d) n (east d) (west d)
       (eastaccmode d) (westaccmode d).
Definition set_east (d : px) (f : Z) : px :=
  mkPx (minor d) (ewbuf d) (webuf d) (nopen d) f (west d)
       (eastaccmode d) (westaccmode d).
Definition set_west (d : px) (f : Z) : px :=
  mkPx (minor d) (ewbuf d) (webuf d) (nopen d) (east d) f
       (eastaccmode d) (westaccmode d).
Definition set_eastaccmode (d : px) (m : Z) : px :=
  mkPx (minor d) (ewbuf d) (webuf d) (nopen d) (east d) (west d)
       m (westaccmode d).
Definition set_westaccmode (d : px) (m : Z) : px :=
  mkPx (minor d) (ewbuf d) (webuf d) (nopen d) (east d) (west d)
       (eastaccmode d) m.

Definition get_cirbuf (d : px) (p : direction) : cirbuf :=
  match p with EW => ewbuf d | WE => webuf d end.
Definition set_cirbuf (d : px) (p : direction) (b : cirbuf) : px :=
  match p with EW => set_ewbuf d b | WE => set_webuf d b end.

(** The bytes behind [buf]; a null pointer has none. *)
Definition mem (b : cirbuf) : list byte := default [] (buf b).

(** ** User-memory copies *)

(** [copy_to_user(buff, src + off, n)]: the [n] bytes handed to the user,
    or [None] when the copy fails. *)
Definition copy_to_user (src : list byte) (off n : Z) : option (list byte) :=
  if n <? 0 then None
  else Some (take (Z.to_nat n) (drop (Z.to_nat off) src)).

(** [copy_from_user(dst + off, buff, n)]: the destination block after the
    copy, or [None] when the copy fails. *)
Definition copy_from_user (dst : list byte) (off : Z) (buff : list byte)
    (n : Z) : option (list byte) :=
  if n <? 0 then None
  else Some (take (Z.to_nat off) dst ++ take (Z.to_nat n) buff
             ++ drop (Z.to_nat off + Z.to_nat n) dst).

(** ** Runs of a circular block

    Operations on a block of [length m] slots indexed by [nat], used to
    describe what the two-part copies of read and write do. *)

(** The slot reached from [r] after [i] steps around a block of [n]. *)
Definition ring_idx (n r i : nat) : nat :=
  if decide (r + i < n)%nat then (r + i)%nat else (r + i - n)%nat.

(** The [a] slots that start at [r], going round the end of the block. *)
Definition ring_run {A} (m : list A) (r a : nat) : list A :=
  take a (drop r m ++ take r m).

(** The two copies of a read of [x] slots from [r]: up to the end of the
    block, then from its start. *)
Definition ring_read {A} (m : list A) (r x : nat) : list A :=
  let c := if decide (length m - r < x)%nat then (length m - r)%nat else x in
  (if decide (c = 0%nat) then [] else take c (drop r m))
  ++ (if decide (0 < x - c)%nat then take (x - c) (drop 0 m) else []).

(** The two copies of a write of the first [x] slots of [src] at [w]. *)
Definition ring_write {A} (m : list A) (w : nat) (src : list A) (x : nat)
    : list A :=
  let c := (x `min` (length m - w))%nat in
  let m1 := if decide (c = 0%nat) then m
            else take w m ++ take c src ++ drop (w + c) m in
  if decide (0 < x - c)%nat
  then take 0 m1 ++ take (x - c) (drop c src) ++ drop (0 + (x - c)) m1
  else m1.

Section Proxy.

(** Module parameter: the size of each circular buffer. *)
Variable buffersize : Z.

(** ** Module initialisation: the state of minor [i] *)

Definition px_init (i : Z) : px :=
  mkPx i (mkCirbuf None 0 0 (-1)) (mkCirbuf None 0 0 (-1)) 0 0 0 0 0.

(** ** proxy_open *)

(** [mem_ew] and [mem_we] are what [kmalloc(buffersize)] returns for the
    east-to-west and the west-to-east buffer if it is called ([None] is
    the null pointer).  The result is the return value and the device. *)
Definition proxy_open (mem_ew mem_we : option (list byte)) (dev : px)
    (filp : file) : Z * px :=
  if 2 <=? nopen dev then (- EBUSY, dev)
  else
    let dev := set_nopen dev (int_add (nopen dev) 1) in
    let ew := match buf (ewbuf dev) with Some m => Some m | None => mem_ew end in
    let dev := set_ewbuf dev (set_buf (ewbuf dev) ew) in
    match ew with
    | None => (- ENOMEM, dev)
    | Some _ =>
      let we := match buf (webuf dev) with Some m => Some m | None => mem_we end in
      let dev := set_webuf dev (set_buf (webuf dev) we) in
      match we with
      | None => (- ENOMEM, dev)
      | Some _ =>
        if east dev =? 0 then
          let dev := set_east dev (f_addr filp) in
          let dev := set_webuf dev (set_ridx (webuf dev) (widx (webuf dev))) in
          let dev := set_ewbuf dev (set_cidx (ewbuf dev) (-1)) in
          let dev := set_webuf dev (set_cidx (webuf dev) (-1)) in
          (0, set_eastaccmode dev (f_flags filp))
        else if west dev =? 0 then
          let dev := set_west dev (f_addr filp) in
          let dev := set_ewbuf dev (set_ridx (ewbuf dev) (widx (ewbuf dev))) in
          let dev := set_webuf dev (set_cidx (webuf dev) (-1)) in
          let dev := set_ewbuf dev (set_cidx (ewbuf dev) (-1)) in
          (0, set_westaccmode dev (f_flags filp))
        else (0, dev)
      end
    end.

(** ** proxy_release *)

Definition proxy_release (dev : px) (filp : file) : Z * px :=
  let dev := set_nopen dev (int_sub (nopen dev) 1) in
  if east dev =? f_addr filp then
    let dev := set_east dev 0 in
    (0, set_ewbuf dev (set_cidx (ewbuf dev) (widx (ewbuf dev))))
  else if west dev =? f_addr filp then
    let dev := set_west dev 0 in
    (0, set_webuf dev (set_cidx (webuf dev) (widx (webuf dev))))
  else (0, dev).

(** ** is_full *)

Definition is_full (pcbuffer : cirbuf) : Z :=
  if (int_sub (ridx pcbuffer) (widx pcbuffer) =? 1)
     || ((ridx pcbuffer =? 0) && (widx pcbuffer =? int_sub buffersize 1))
  then 1 else 0.

(** ** proxy_read *)

(** The copy-out part of [proxy_read], after the wait loop. *)
Definition read_copy (dev : px) (p : direction) (count : Z)
    : outcome * px * list byte :=
  let pcbuffer := get_cirbuf dev p in
  let xfer := int_sub (widx pcbuffer) (ridx pcbuffer) in
  let xfer := if xfer <? 0 then int_add xfer buffersize else xfer in
  let xfer := Z.min (to_int count) xfer in
  let ret := xfer in
  let cpcnt := int_sub buffersize (ridx pcbuffer) in
  let cpcnt := if cpcnt <? xfer then cpcnt else xfer in
  match (if cpcnt =? 0 then Some []
         else copy_to_user (mem pcbuffer) (ridx pcbuffer) cpcnt) with
  | None => (Ret (- EFAULT), dev, [])
  | Some out1 =>
    match (if int_sub xfer cpcnt >? 0
           then copy_to_user (mem pcbuffer) 0 (int_sub xfer cpcnt)
           else Some []) with
    | None => (Ret (- EFAULT), dev, out1)
    | Some out2 =>
      let r := int_add (ridx pcbuffer) xfer in
      let r := int_sub r (if r >? int_sub buffersize 1 then buffersize else 0) in
      (Ret ret, set_cirbuf dev p (set_ridx pcbuffer r), out1 ++ out2)
    end
  end.

(** The result is the outcome, the device and the bytes stored in the
    user's buffer. *)
Definition proxy_read (dev : px) (filp : file) (count : Z)
    : outcome * px * list byte :=
  if f_addr filp =? east dev then
    let pcbuffer := webuf dev in
    if ridx pcbuffer =? cidx pcbuffer then (Ret 0, dev, [])
    else if ridx pcbuffer =? widx pcbuffer then
      if Z.land (f_flags filp) O_NONBLOCK =? 0 then (Sleeps, dev, [])
      else (Ret (- EWOULDBLOCK), dev, [])
    else read_copy dev WE count
  else if f_addr filp =? west dev then
    let pcbuffer := ewbuf dev in
    if ridx pcbuffer =? cidx pcbuffer then (Ret 0, dev, [])
    else if ridx pcbuffer =? widx pcbuffer then
      if Z.land (f_flags filp) O_NONBLOCK =? 0 then (Sleeps, dev, [])
      else (Ret (- EWOULDBLOCK), dev, [])
    else read_copy dev EW count
  else (Ret 0, dev, []).

(** A reader asleep on the queue of [p]: a signal makes
    [wait_event_interruptible] fail, a wake-up re-tests the predicate
    [ridx != widx] and either stays asleep or leaves the loop. *)
Definition proxy_read_wake (ev : wake) (dev : px) (p : direction)
    (count : Z) : outcome * px * list byte :=
  match ev with
  | Signal => (Ret (- ERESTARTSYS), dev, [])
  | WakeUp =>
    if ridx (get_cirbuf dev p) =? widx (get_cirbuf dev p)
    then (Sleeps, dev, [])
    else read_copy dev p count
  end.

(** ** proxy_write *)

(** The copy-in part of [proxy_write], after the wait loop.  [count] is
    the length of the user's data [buff]. *)
Definition write_copy (dev : px) (p : direction) (buff : list byte)
    : outcome * px :=
  let count := Z.of_nat (length buff) in
  let pcbuffer := get_cirbuf dev p in
  let xfer := int_sub (int_sub (ridx pcbuffer) 1) (widx pcbuffer) in
  let xfer := if xfer <? 0 then int_add xfer buffersize else xfer in
  let xfer := Z.min (to_int count) xfer in
  let ret := xfer in
  let cpcnt := Z.min xfer (int_sub buffersize (widx pcbuffer)) in
  match (if cpcnt =? 0 then Some (mem pcbuffer)
         else copy_from_user (mem pcbuffer) (widx pcbuffer) buff cpcnt) with
  | None => (Ret (- EFAULT), dev)
  | Some m1 =>
    match (if int_sub xfer cpcnt >? 0
           then copy_from_user m1 0 (drop (Z.to_nat cpcnt) buff)
                               (int_sub xfer cpcnt)
           else Some m1) with
    | None =>
      (Ret (- EFAULT),
       set_cirbuf dev p (set_buf pcbuffer ((fun _ => m1) <$> buf pcbuffer)))
    | Some m2 =>
      let pcbuffer := set_buf pcbuffer ((fun _ => m2) <$> buf pcbuffer) in
      let w := int_add (widx pcbuffer) xfer in
      let w := int_sub w (if w >? int_sub buffersize 1 then buffersize else 0) in
      let pcbuffer := set_widx pcbuffer w in
      let pcbuffer :=
        if count =? 0 then set_cidx pcbuffer (widx pcbuffer) else pcbuffer in
      (Ret ret, set_cirbuf dev p pcbuffer)
    end
  end.

Definition proxy_write (dev : px) (filp : file) (buff : list byte)
    : outcome * px :=
  if f_addr filp =? east dev then
    if negb (nopen dev =? 2) || (is_full (ewbuf dev) =? 1) then
      if Z.land (f_flags filp) O_NONBLOCK =? 0 then (Sleeps, dev)
      else (Ret (- EWOULDBLOCK), dev)
    else write_copy dev EW buff
  else if f_addr filp =? west dev then
    if negb (nopen dev =? 2) || (is_full (webuf dev) =? 1) then
      if Z.land (f_flags filp) O_NONBLOCK =? 0 then (Sleeps, dev)
      else (Ret (- EWOULDBLOCK), dev)
    else write_copy dev WE buff
  else (Ret 0, dev).

(** A writer asleep on the queue of [p]; the predicate re-tested on a
    wake-up is [nopen == 2 && !is_full]. *)
Definition proxy_write_wake (ev : wake) (dev : px) (p : direction)
    (buff : list byte) : outcome * px :=
  match ev with
  | Signal => (Ret (- ERESTARTSYS), dev)
  | WakeUp =>
    if negb (nopen dev =? 2) || (is_full (get_cirbuf dev p) =? 1)
    then (Sleeps, dev)
    else write_copy dev p buff
  end.

(** ** proxy_poll *)

Definition proxy_poll (dev : px) (filp : file) : Z :=
  if f_addr filp =? west dev then
    let ready_mask :=
      if (is_full (webuf dev) =? 0) && (nopen dev =? 2)
         && negb (cidx (webuf dev) =? widx (webuf dev))
         && negb (Z.land (eastaccmode dev) O_ACCMODE =? O_WRONLY)
         && negb (Z.land (f_flags filp) O_ACCMODE =? O_RDONLY)
      then Z.lor POLLOUT POLLWRNORM else 0 in
    if (negb (widx (ewbuf dev) =? ridx (ewbuf dev))
        || (ridx (ewbuf dev) =? cidx (ewbuf dev)))
       && negb (Z.land (eastaccmode dev) O_ACCMODE =? O_RDONLY)
       && negb (Z.land (f_flags filp) O_ACCMODE =? O_WRONLY)
    then Z.lor ready_mask (Z.lor POLLIN POLLRDNORM) else ready_mask
  else if f_addr filp =? east dev then
    let ready_mask :=
      if (is_full (ewbuf dev) =? 0) && (nopen dev =? 2)
         && negb (cidx (ewbuf dev) =? widx (ewbuf dev))
         && negb (Z.land (westaccmode dev) O_ACCMODE =? O_WRONLY)
         && negb (Z.land (f_flags filp) O_ACCMODE =? O_RDONLY)
      then Z.lor POLLOUT POLLWRNORM else 0 in
    if (negb (widx (webuf dev) =? ridx (webuf dev))
        || (ridx (webuf dev) =? cidx (webuf dev)))
       && negb (Z.land (westaccmode dev) O_ACCMODE =? O_RDONLY)
       && negb (Z.land (f_flags filp) O_ACCMODE =? O_WRONLY)
    then Z.lor ready_mask (Z.lor POLLIN POLLRDNORM) else ready_mask
  else 0.

(** ** Well-formedness and the abstract content of a buffer *)

(** Both cursors are indices of the buffer. *)
Definition cursors_ok (b : cirbuf) : Prop :=
  0 <= widx b < buffersize /\ 0 <= ridx b < buffersize.

(** The buffer is allocated with [buffersize] bytes. *)
Definition storage_ok (b : cirbuf) : Prop :=
  exists m, buf b = Some m /\ Z.of_nat (length m) = buffersize.

Definition cirbuf_ok (b : cirbuf) : Prop := cursors_ok b /\ storage_ok b.

(** Number of bytes waiting to be read, and number of bytes that can
    still be written. *)
Definition avail (b : cirbuf) : Z := (widx b - ridx b) mod buffersize.
Definition space (b : cirbuf) : Z := (ridx b - widx b - 1) mod buffersize.

(** The bytes waiting to be read, oldest first: the run of [avail] bytes
    that starts at [ridx]. *)
Definition pending (b : cirbuf) : list byte :=
  ring_run (mem b) (Z.to_nat (ridx b)) (Z.to_nat (avail b)).

(** The open count agrees with the occupied sides, which are distinct. *)
Definition sides_ok (dev : px) : Prop :=
  nopen dev = (if east dev =? 0 then 0 else 1) + (if west dev =? 0 then 0 else 1)
  /\ (east dev <> 0 -> east dev <> west dev).

(** Several writes issued one after the other by the same endpoint; the
    outcome of every call is kept. *)
Fixpoint write_all (dev : px) (filp : file) (bufs : list (list byte))
    : list outcome * px :=
  match bufs with
  | [] => ([], dev)
  | buff :: rest =>
    let '(o, dev1) := proxy_write dev filp buff in
    let '(os, dev2) := write_all dev1 filp rest in
    (o :: os, dev2)
  end.

(** ** Endpoints and calls *)

(** The buffer an endpoint writes to and the one it reads from, as
    selected at the top of [proxy_write] and [proxy_read]; [None] when the
    file is neither the east nor the west side. *)
Definition outbound (dev : px) (filp : file) : option direction :=
  if f_addr filp =? east dev then Some EW
  else if f_addr filp =? west dev then Some WE
  else None.

Definition inbound (dev : px) (filp : file) : option direction :=
  if f_addr filp =? east dev then Some WE
  else if f_addr filp =? west dev then Some EW
  else None.

(** The file stored for the side opposite to [filp] (0 when it is free). *)
Definition peer (dev : px) (filp : file) : Z :=
  if f_addr filp =? east dev then west dev else east dev.

(** The file stored for the side that writes into the buffer [p]. *)
Definition writer_of (dev : px) (p : direction) : Z :=
  match p with EW => east dev | WE => west dev end.

(** The buffer of the opposite direction. *)
Definition other (p : direction) : direction :=
  match p with EW => WE | WE => EW end.

(** Two device states with the same sides, open count and modes. *)
Definition same_sides (dev dev' : px) : Prop :=
  nopen dev' = nopen dev /\ east dev' = east dev /\ west dev' = west dev
  /\ eastaccmode dev' = eastaccmode dev
  /\ westaccmode dev' = westaccmode dev.

(** The calls that can be made on an open device, apart from open. *)
Inductive call : Type :=
  | CRead (filp : file) (count : Z)
  | CReadWake (ev : wake) (p : direction) (count : Z)
  | CWrite (filp : file) (buff : list byte)
  | CWriteWake (ev : wake) (p : direction) (buff : list byte)
  | CRelease (filp : file)
  | CPoll (filp : file).

(** The device after a call. *)
Definition run_call (dev : px) (c : call) : px :=
  match c with
  | CRead filp count => snd (fst (proxy_read dev filp count))
  | CReadWake ev p count => snd (fst (proxy_read_wake ev dev p count))
  | CWrite filp buff => snd (proxy_write dev filp buff)
  | CWriteWake ev p buff => snd (proxy_write_wake ev dev p buff)
  | CRelease filp => snd (proxy_release dev filp)
  | CPoll _ => dev
  end.

Definition run_calls (dev : px) (cs : list call) : px :=
  fold_left run_call cs dev.


(** Calls the file layer can make in state [dev]: files are not null and
    only a file that is on a side is released. *)
Definition call_ok (dev : px) (c : call) : Prop :=
  match c with
  | CRead filp _ | CWrite filp _ | CPoll filp => f_addr filp <> 0
  | CRelease filp =>
    f_addr filp <> 0 /\ (f_addr filp = east dev \/ f_addr filp = west dev)
  | CReadWake _ _ _ | CWriteWake _ _ _ => True
  end.

Fixpoint calls_ok (dev : px) (cs : list call) : Prop :=
  match cs with
  | [] => True
  | c :: rest => call_ok dev c /\ calls_ok (run_call dev c) rest
  end.

(** The reading loop of a client: read [count] bytes at a time until a
    read returns nothing (or sleeps), at most [fuel] times; the result is
    everything that was read. *)
Fixpoint read_until_eof (fuel : nat) (dev : px) (filp : file) (count : Z)
    : list byte * px :=
  match fuel with
  | O => ([], dev)
  | S k =>
    match proxy_read dev filp count with
    | (Ret n, dev1, out) =>
      if n <=? 0 then ([], dev1)
      else let '(rest, dev2) := read_until_eof k dev1 filp count in
           (out ++ rest, dev2)
    | (Sleeps, dev1, _) => ([], dev1)
    end
  end.


(** Readiness bits of a poll mask. *)
Definition writable (mask : Z) : bool :=
  Z.land mask (Z.lor POLLOUT POLLWRNORM) =? Z.lor POLLOUT POLLWRNORM.
Definition readable (mask : Z) : bool :=
  Z.land mask (Z.lor POLLIN POLLRDNORM) =? Z.lor POLLIN POLLRDNORM.

(** ** Sample data: a device with 8-byte buffers and two endpoints *)

Definition blk8 : list byte := [x00; x00; x00; x00; x00; x00; x00; x00].
Definition file_e : file := mkFile 100 O_RDWR.
Definition file_w : file := mkFile 200 O_RDWR.
Definition file_e_nb : file := mkFile 100 (Z.lor O_RDWR O_NONBLOCK).
Definition file_x : file := mkFile 300 O_RDWR.

(** The device once [file_e] and then [file_w] have opened it. *)
Definition dev_pair : px :=
  mkPx 0 (mkCirbuf (Some blk8) 0 0 (-1)) (mkCirbuf (Some blk8) 0 0 (-1))
       2 100 200 O_RDWR O_RDWR.

(** Both endpoints connected, east-to-west cursors at 6 (empty buffer). *)
Definition dev_pair6 : px :=
  mkPx 0 (mkCirbuf (Some blk8) 6 6 (-1)) (mkCirbuf (Some blk8) 0 0 (-1))
       2 100 200 O_RDWR O_RDWR.

Definition abc : list byte := [x41; x42; x43].
Definition abcde : list byte := [x41; x42; x43; x44; x45].

(** Both endpoints connected, the bytes "ABC" waiting in the east-to-west
    buffer across the end of the block (slots 6, 7 and 0). *)
Definition blk_abc : list byte := [x43; x00; x00; x00; x00; x00; x41; x42].
Definition dev_abc : px :=
  mkPx 0 (mkCirbuf (Some blk_abc) 1 6 (-1)) (mkCirbuf (Some blk8) 0 0 (-1))
       2 100 200 O_RDWR O_RDWR.

(** Only [file_e] connected. *)
Definition dev_east_only : px :=
  mkPx 0 (mkCirbuf (Some blk8) 0 0 (-1)) (mkCirbuf (Some blk8) 0 0 (-1))
       1 100 0 O_RDWR 0.

(** Only [file_w] connected, after an earlier east endpoint has left: a
    close marker on the east-to-west buffer and two unread bytes in the
    west-to-east buffer. *)
Definition dev_west_only : px :=
  mkPx 0 (mkCirbuf (Some blk8) 2 2 2) (mkCirbuf (Some blk8) 5 3 (-1))
       1 0 200 O_RDWR O_RDWR.


(** ** The module: device table, initialisation and removal *)

(** The globals of the module: [px_devices] (null until the table is
    allocated) and the major number. *)
Record module : Type := mkModule {
  px_devices : option (list px);
  px_major : Z
}.

(** The globals when the module is loaded. *)
Definition module_start : module := mkModule None 0.

Definition set_minor (d : px) (i : Z) : px :=
  mkPx i (ewbuf d) (webuf d) (nopen d) (east d) (west d)
       (eastaccmode d) (westaccmode d).

(** A [struct px] after [memset(..., 0, ...)]. *)
Definition px_zero : px :=
  mkPx 0 (mkCirbuf None 0 0 0) (mkCirbuf None 0 0 0) 0 0 0 0 0.

(** The body of the initialisation loop for [px_devices[i]]. *)
Definition init_device (i : Z) (d : px) : px :=
  let d := set_minor d i in
  let d := set_ewbuf d (set_buf (ewbuf d) None) in
  let d := set_webuf d (set_buf (webuf d) None) in
  let d := set_ewbuf d (set_widx (ewbuf d) 0) in
  let d := set_webuf d (set_widx (webuf d) 0) in
  let d := set_ewbuf d (set_ridx (ewbuf d) 0) in
  let d := set_webuf d (set_ridx (webuf d) 0) in
  let d := set_ewbuf d (set_cidx (ewbuf d) (-1)) in
  let d := set_webuf d (set_cidx (webuf d) (-1)) in
  let d := set_east d 0 in
  let d := set_west d 0 in
  set_nopen d 0.

(** [for (i = ...; i < numberofdevs; i++)] with [todo] rounds left. *)
Fixpoint init_loop (todo : nat) (i : Z) (devs : list px) : list px :=
  match todo with
  | O => devs
  | S k => init_loop k (int_add i 1) (alter (init_device i) (Z.to_nat i) devs)
  end.

(** [proxy_init_module].  [table] is what [kmalloc] returns for the
    device table ([None] is the null pointer, otherwise [numberofdevs]
    entries of any content), [region] is the result and the major number
    of [alloc_chrdev_region], [add_err] the result of [cdev_add]. *)
Definition proxy_init_module (numberofdevs : Z) (table : option (list px))
    (region : Z * Z) (add_err : Z) (g : module) : Z * module :=
  match table with
  | None => (0, mkModule None (px_major g))
  | Some t =>
    let devs := (fun _ => px_zero) <$> t in
    let devs := init_loop (Z.to_nat numberofdevs) 0 devs in
    let g := mkModule (Some devs) (px_major g) in
    if fst region <? 0 then (fst region, g)
    else
      let g := mkModule (px_devices g) (snd region) in
      if add_err <? 0 then (add_err, g)
      else (0, g)
  end.

(** The buffers handed to [kfree] by the loop of [proxy_exit_module]. *)
Fixpoint exit_loop (todo : nat) (i : Z) (devs : list px) : list (list byte) :=
  match todo with
  | O => []
  | S k =>
    match devs !! Z.to_nat i with
    | Some d => option_list (buf (ewbuf d)) ++ option_list (buf (webuf d))
    | None => []
    end ++ exit_loop k (int_add i 1) devs
  end.

(** [proxy_exit_module]: the globals afterwards and the buffers freed. *)
Definition proxy_exit_module (numberofdevs : Z) (g : module)
    : module * list (list byte) :=
  match px_devices g with
  | None => (g, [])
  | Some devs =>
    (mkModule None (px_major g), exit_loop (Z.to_nat numberofdevs) 0 devs)
  end.

(** [proxy_open] as the file layer calls it: the device is
    [px_devices[mnr]].  [None] stands for a minor outside the table,
    which the file layer never passes. *)
Definition open_minor (mem_ew mem_we : option (list byte)) (g : module)
    (mnr : Z) (filp : file) : option (Z * module) :=
  match px_devices g with
  | None => None
  | Some devs =>
    match devs !! Z.to_nat mnr with
    | None => None
    | Some dev =>
      let '(ret, dev1) := proxy_open mem_ew mem_we dev filp in
      Some (ret, mkModule (Some (<[Z.to_nat mnr := dev1]> devs)) (px_major g))
    end
  end.

(** The blocks a device holds from [kmalloc]. *)
Definition held (d : px) : list (list byte) :=
  option_list (buf (ewbuf d)) ++ option_list (buf (webuf d)).

(** The table [proxy_init_module] leaves behind for [n] devices. *)
Definition init_table (n : nat) : list px :=
  (fun i => px_init (Z.of_nat i)) <$> seq 0 n.

(** ** Runs of reads and writes on one direction *)

(** A device with both buffers allocated, cursors inside them and an
    open count that matches the sides. *)
Definition dev_ok (dev : px) : Prop :=
  cirbuf_ok (ewbuf dev) /\ cirbuf_ok (webuf dev) /\ sides_ok dev.

(** Requests whose length fits an [int], as the file layer passes them. *)
Definition call_sized (c : call) : Prop :=
  match c with
  | CRead _ count | CReadWake _ _ count => 0 <= count <= INT_MAX
  | CWrite _ buff | CWriteWake _ _ buff =>
    Z.of_nat (length buff) <= INT_MAX
  | CRelease _ | CPoll _ => True
  end.

(** One step of the writer or of the reader of a buffer: a new call, or
    an event (a wake-up of the queue, or a signal) for the call of that
    endpoint that is asleep in its wait. *)
Inductive io : Type :=
  | IoWrite (buff : list byte)
  | IoRead (count : Z)
  | IoWriterEvent (ev : wake)
  | IoReaderEvent (ev : wake).

Definition io_sized (a : io) : Prop :=
  match a with
  | IoWrite buff => Z.of_nat (length buff) <= INT_MAX
  | IoRead count => 0 <= count <= INT_MAX
  | IoWriterEvent _ | IoReaderEvent _ => True
  end.

(** The bytes of [buff] a write has taken, given its outcome. *)
Definition accepted (o : outcome) (buff : list byte) : list byte :=
  match o with
  | Ret n => take (Z.to_nat n) buff
  | Sleeps => []
  end.

(** The writer [wr] and the reader [rd] take the steps of [ios] in turn.
    [ws] is the call the writer is asleep in, if any: the buffer it waits
    on, fixed when the call was made, and its data; [rs] is the same for
    the reader, with the requested count.  An endpoint that is asleep
    makes no new call, and an event for an endpoint that is not asleep
    does nothing; a call that sleeps again after a wake-up stays asleep.
    The result is the bytes taken from the writer, the bytes handed to
    the reader, and the device. *)
Fixpoint run_io (dev : px) (wr rd : file)
    (ws : option (direction * list byte)) (rs : option (direction * Z))
    (ios : list io) : list byte * list byte * px :=
  match ios with
  | [] => ([], [], dev)
  | IoWrite buff :: rest =>
    match ws with
    | Some _ => run_io dev wr rd ws rs rest
    | None =>
      let '(o, dev1) := proxy_write dev wr buff in
      let ws1 := match o, outbound dev wr with
                 | Sleeps, Some p => Some (p, buff)
                 | _, _ => None
                 end in
      let '(w, r, dev2) := run_io dev1 wr rd ws1 rs rest in
      (accepted o buff ++ w, r, dev2)
    end
  | IoWriterEvent ev :: rest =>
    match ws with
    | None => run_io dev wr rd ws rs rest
    | Some (p, buff) =>
      let '(o, dev1) := proxy_write_wake ev dev p buff in
      let ws1 := match o with Sleeps => ws | Ret _ => None end in
      let '(w, r, dev2) := run_io dev1 wr rd ws1 rs rest in
      (accepted o buff ++ w, r, dev2)
    end
  | IoRead count :: rest =>
    match rs with
    | Some _ => run_io dev wr rd ws rs rest
    | None =>
      let '(o, dev1, out) := proxy_read dev rd count in
      let rs1 := match o, inbound dev rd with
                 | Sleeps, Some p => Some (p, count)
                 | _, _ => None
                 end in
      let '(w, r, dev2) := run_io dev1 wr rd ws rs1 rest in
      (w, out ++ r, dev2)
    end
  | IoReaderEvent ev :: rest =>
    match rs with
    | None => run_io dev wr rd ws rs rest
    | Some (p, count) =>
      let '(o, dev1, out) := proxy_read_wake ev dev p count in
      let rs1 := match o with Sleeps => rs | Ret _ => None end in
      let '(w, r, dev2) := run_io dev1 wr rd ws rs1 rest in
      (w, out ++ r, dev2)
    end
  end.

(** ** Properties *)

(** The buffer has at least one usable slot, and sums of a cursor and a
    transfer length (below [2 * buffersize]) fit an [int]. *)
Hypothesis buffersize_range : 2 <= buffersize <= 1073741824.

(** *** Lists and circular runs *)

Lemma lookup_app_dec {A} (l1 l2 : list A) (i : nat) :
  (l1 ++ l2) !! i
  = if decide (i < length l1)%nat then l1 !! i else l2 !! (i - length l1)%nat.
Proof.
  case_decide.
  - by apply lookup_app_l.
  - apply lookup_app_r. lia.
Qed.

Ltac len_simpl :=
  repeat (progress rewrite ?length_app, ?length_take, ?length_drop).

Ltac lookup_simpl :=
  repeat (progress rewrite ?lookup_app_dec, ?lookup_take, ?lookup_drop,
                           ?length_app, ?length_take, ?length_drop).

Ltac lookup_cases :=
  repeat case_decide; try lia;
  try (symmetry; apply lookup_ge_None_2; lia);
  try (apply lookup_ge_None_2; lia);
  try (f_equal; lia).

Section Ring.
Context {A : Type}.
Implicit Types (m src : list A) (r w x a i j n : nat).
Local Open Scope nat_scope.

Lemma ring_run_length m r a :
  r <= length m -> a <= length m -> length (ring_run m r a) = a.
Proof. intros. unfold ring_run. len_simpl. lia. Qed.

Lemma ring_run_lookup m r a i :
  r <= length m -> a <= length m -> i < a ->
  ring_run m r a !! i = m !! ring_idx (length m) r i.
Proof.
  intros Hr Ha Hi. unfold ring_run, ring_idx.
  lookup_simpl. lookup_cases.
Qed.

Lemma ring_read_run m r x :
  r < length m -> x <= length m -> ring_read m r x = ring_run m r x.
Proof.
  intros Hr Hx. unfold ring_read, ring_run.
  apply list_eq. intros i.
  repeat case_decide; simpl; lookup_simpl; lookup_cases.
Qed.

Lemma ring_write_length m w src x :
  w < length m -> x <= length m -> x <= length src ->
  length (ring_write m w src x) = length m.
Proof.
  intros Hw Hx Hs. unfold ring_write.
  repeat case_decide; simpl; len_simpl; lia.
Qed.

Lemma ring_write_lookup m w src x j :
  w < length m -> x <= length m -> x <= length src -> j < length m ->
  ring_write m w src x !! j
  = if decide (w <= j < w + x) then src !! (j - w)
    else if decide (j + length m < w + x) then src !! (j + length m - w)
    else m !! j.
Proof.
  intros Hw Hx Hs Hj. unfold ring_write.
  destruct (Nat.min_spec x (length m - w)) as [[? ->]|[? ->]];
  repeat case_decide; simpl; lookup_simpl; lookup_cases.
Qed.

Lemma ring_write_run m r a w src x :
  r < length m -> w = ring_idx (length m) r a ->
  a + x <= length m -> x <= length src -> a < length m ->
  ring_run (ring_write m w src x) r (a + x)
  = ring_run m r a ++ take x src.
Proof.
  intros Hr -> Hax Hs Ha.
  assert (ring_idx (length m) r a < length m) as Hw
    by (unfold ring_idx; case_decide; lia).
  apply list_eq. intros i.
  destruct (decide (i < a + x)).
  - rewrite ring_run_lookup by (rewrite ?ring_write_length; lia).
    rewrite ring_write_length by lia.
    rewrite ring_write_lookup by (try lia; unfold ring_idx; case_decide; lia).
    rewrite lookup_app_dec, ring_run_length by lia.
    destruct (decide (i < a)).
    + rewrite ring_run_lookup by lia.
      unfold ring_idx. repeat case_decide; try lia; done.
    + rewrite lookup_take. unfold ring_idx.
      repeat case_decide; try lia; f_equal; lia.
  - rewrite !lookup_ge_None_2; [done| |].
    + len_simpl. rewrite ring_run_length; lia.
    + rewrite ring_run_length; rewrite ?ring_write_length; lia.
Qed.

Lemma ring_run_take m r a x :
  r <= length m -> a <= length m -> x <= a ->
  take x (ring_run m r a) = ring_run m r x.
Proof.
  intros. unfold ring_run. rewrite take_take. f_equal. lia.
Qed.

Lemma ring_run_drop m r a x :
  r < length m -> a <= length m -> x <= a ->
  drop x (ring_run m r a) = ring_run m (ring_idx (length m) r x) (a - x).
Proof.
  intros Hr Ha Hx.
  assert (ring_idx (length m) r x < length m) as Hw
    by (unfold ring_idx; case_decide; lia).
  apply list_eq. intros i. rewrite lookup_drop.
  destruct (decide (i < a - x)).
  - rewrite !ring_run_lookup by lia.
    unfold ring_idx. repeat case_decide; try lia; f_equal; lia.
  - rewrite !lookup_ge_None_2; [done| |]; rewrite ring_run_length; lia.
Qed.

End Ring.

(** *** Integer arithmetic of the cursors *)

Lemma to_int_small z : -2147483648 <= z < 2147483648 -> to_int z = z.
Proof.
  intros Hz. unfold to_int.
  rewrite Z.mod_small by lia. lia.
Qed.

Ltac int_simpl :=
  unfold int_add, int_sub in *;
  repeat match goal with
         | |- context [to_int ?z] => rewrite (to_int_small z) by lia
         end.

Lemma mod_wrap z :
  0 <= z < 2 * buffersize ->
  z mod buffersize = if z <? buffersize then z else z - buffersize.
Proof.
  intros Hz. destruct (Z.ltb_spec z buffersize).
  - rewrite Z.mod_small; lia.
  - rewrite <- (Z.mod_add _ (-1)) by lia. rewrite Z.mod_small; lia.
Qed.

Lemma mod_unwrap z :
  - buffersize <= z < buffersize ->
  z mod buffersize = if z <? 0 then z + buffersize else z.
Proof.
  intros Hz. destruct (Z.ltb_spec z 0).
  - rewrite <- (Z.mod_add _ 1) by lia. rewrite Z.mod_small; lia.
  - rewrite Z.mod_small; lia.
Qed.

Lemma wrap_cursor c x :
  0 <= c < buffersize -> 0 <= x < buffersize ->
  int_sub (int_add c x)
          (if int_add c x >? int_sub buffersize 1 then buffersize else 0)
  = (c + x) mod buffersize.
Proof.
  intros Hc Hx. rewrite mod_wrap by lia. int_simpl.
  destruct (Z.gtb_spec (c + x) (buffersize - 1));
    destruct (Z.ltb_spec (c + x) buffersize); int_simpl; lia.
Qed.

Lemma avail_spec b :
  cursors_ok b ->
  avail b = if widx b - ridx b <? 0 then widx b - ridx b + buffersize
            else widx b - ridx b.
Proof. intros [Hw Hr]. unfold avail. apply mod_unwrap. lia. Qed.

Lemma space_spec b :
  cursors_ok b ->
  space b = if ridx b - 1 - widx b <? 0 then ridx b - 1 - widx b + buffersize
            else ridx b - 1 - widx b.
Proof.
  intros [Hw Hr]. unfold space.
  replace (ridx b - widx b - 1) with (ridx b - 1 - widx b) by lia.
  apply mod_unwrap. lia.
Qed.

Lemma space_range b : 0 <= space b < buffersize.
Proof. unfold space. apply Z.mod_pos_bound. lia. Qed.

Lemma avail_range b : 0 <= avail b < buffersize.
Proof. unfold avail. apply Z.mod_pos_bound. lia. Qed.

Lemma avail_space b : cursors_ok b -> avail b + space b = buffersize - 1.
Proof.
  intros Hb. rewrite avail_spec, space_spec by done.
  destruct Hb as [Hw Hr].
  destruct (Z.ltb_spec (widx b - ridx b) 0);
    destruct (Z.ltb_spec (ridx b - 1 - widx b) 0); lia.
Qed.

Lemma pending_length b :
  cirbuf_ok b -> Z.of_nat (length (pending b)) = avail b.
Proof.
  intros [[Hw Hr] (m & Hm & Hlen)]. pose proof (avail_range b).
  unfold pending, mem. rewrite Hm. simpl.
  rewrite ring_run_length; lia.
Qed.

Lemma ring_idx_mod c x :
  0 <= c < buffersize -> 0 <= x < buffersize ->
  Z.to_nat ((c + x) mod buffersize)
  = ring_idx (Z.to_nat buffersize) (Z.to_nat c) (Z.to_nat x).
Proof.
  intros Hc Hx. rewrite mod_wrap by lia. unfold ring_idx.
  destruct (Z.ltb_spec (c + x) buffersize); case_decide; lia.
Qed.

Lemma widx_ring_idx b :
  cursors_ok b ->
  Z.to_nat (widx b)
  = ring_idx (Z.to_nat buffersize) (Z.to_nat (ridx b)) (Z.to_nat (avail b)).
Proof.
  intros Hc. pose proof (avail_range b).
  rewrite <- ring_idx_mod by (destruct Hc; lia).
  unfold avail. rewrite Zplus_mod_idemp_r.
  replace (ridx b + (widx b - ridx b)) with (widx b) by lia.
  rewrite Z.mod_small; destruct Hc; lia.
Qed.

(** *** What the copy parts of write and read do *)

Lemma write_copy_spec dev p buff :
  cirbuf_ok (get_cirbuf dev p) ->
  Z.of_nat (length buff) <= INT_MAX ->
  exists b',
    write_copy dev p buff
    = (Ret (Z.min (Z.of_nat (length buff)) (space (get_cirbuf dev p))),
       set_cirbuf dev p b')
    /\ cirbuf_ok b'
    /\ ridx b' = ridx (get_cirbuf dev p)
    /\ widx b'
       = (widx (get_cirbuf dev p)
          + Z.min (Z.of_nat (length buff)) (space (get_cirbuf dev p)))
         mod buffersize
    /\ cidx b' = (if Z.of_nat (length buff) =? 0
                  then widx (get_cirbuf dev p) else cidx (get_cirbuf dev p))
    /\ pending b'
       = pending (get_cirbuf dev p)
         ++ take (Z.to_nat (Z.min (Z.of_nat (length buff))
                                  (space (get_cirbuf dev p)))) buff.
Proof.
  intros Hok Hlen. unfold write_copy.
  set (b := get_cirbuf dev p) in *.
  pose proof (space_range b) as Hsp.
  pose proof (avail_range b) as Hav.
  pose proof (avail_space b (proj1 Hok)) as Hsum.
  pose proof (space_spec b (proj1 Hok)) as Hspec.
  pose proof (widx_ring_idx b (proj1 Hok)) as Hring.
  destruct Hok as [[Hw Hr] (m & Hm & Hmlen)].
  unfold INT_MAX in Hlen.
  replace (if int_sub (int_sub (ridx b) 1) (widx b) <? 0
           then int_add (int_sub (int_sub (ridx b) 1) (widx b)) buffersize
           else int_sub (int_sub (ridx b) 1) (widx b)) with (space b).
  2:{ rewrite Hspec. int_simpl.
      destruct (Z.ltb_spec (ridx b - 1 - widx b) 0); int_simpl; lia. }
  clear Hspec.
  rewrite (to_int_small (Z.of_nat (length buff))) by lia.
  set (x := Z.min (Z.of_nat (length buff)) (space b)) in *.
  assert (0 <= x <= space b /\ x <= Z.of_nat (length buff)) as Hx by lia.
  cbn [widx ridx cidx buf set_buf set_widx set_cidx].
  rewrite wrap_cursor by lia.
  assert (0 <= (widx b + x) mod buffersize < buffersize) as Hw'
    by (apply Z.mod_pos_bound; lia).
  assert (Z.of_nat (length buff) = 0 -> (widx b + x) mod buffersize = widx b)
    as Hzero by (intros; rewrite Z.mod_small; lia).
  int_simpl.
  set (cpcnt := Z.min x (buffersize - widx b)).
  unfold mem. rewrite Hm. cbn [default from_option fmap option_fmap option_map].
  unfold id.
  assert ((if cpcnt =? 0 then Some m
           else copy_from_user m (widx b) buff cpcnt)
          = Some (let c := (Z.to_nat x `min` (length m - Z.to_nat (widx b)))%nat in
                  if decide (c = 0%nat) then m
                  else take (Z.to_nat (widx b)) m ++ take c buff
                       ++ drop (Z.to_nat (widx b) + c) m)) as ->.
  { cbv zeta. unfold copy_from_user.
    destruct (Z.eqb_spec cpcnt 0); case_decide; try lia; [done|].
    destruct (Z.ltb_spec cpcnt 0); [lia|].
    replace (Z.to_nat cpcnt)
      with (Z.to_nat x `min` (length m - Z.to_nat (widx b)))%nat by lia.
    done. }
  cbv zeta.
  set (m1 := if decide (_ = 0%nat) then m else _).
  assert ((if x - cpcnt >? 0
           then copy_from_user m1 0 (drop (Z.to_nat cpcnt) buff) (x - cpcnt)
           else Some m1)
          = Some (ring_write m (Z.to_nat (widx b)) buff (Z.to_nat x))) as ->.
  { unfold ring_write. cbv zeta. fold m1. unfold copy_from_user.
    replace (Z.to_nat x `min` (length m - Z.to_nat (widx b)))%nat
      with (Z.to_nat cpcnt) by lia.
    destruct (Z.gtb_spec (x - cpcnt) 0); case_decide; try lia; [|done].
    destruct (Z.ltb_spec (x - cpcnt) 0); [lia|].
    replace (Z.to_nat (x - cpcnt)) with (Z.to_nat x - Z.to_nat cpcnt)%nat by lia.
    done. }
  clear m1.
  assert (avail (set_widx b ((widx b + x) mod buffersize)) = avail b + x)
    as Hav'.
  { unfold avail. cbn [widx ridx set_widx].
    rewrite Zminus_mod_idemp_l.
    replace (widx b + x - ridx b) with (widx b - ridx b + x) by lia.
    rewrite <- Zplus_mod_idemp_l. fold (avail b).
    apply Z.mod_small. lia. }
  assert (pending (set_widx
                     (set_buf b (Some (ring_write m (Z.to_nat (widx b)) buff
                                                  (Z.to_nat x))))
                     ((widx b + x) mod buffersize))
          = pending b ++ take (Z.to_nat x) buff) as Hpend.
  { unfold pending at 1. unfold mem.
    change (avail (set_widx (set_buf b ?m') ?w)) with (avail (set_widx b w)).
    rewrite Hav'. cbn [widx ridx buf set_buf set_widx default from_option].
    unfold id, pending, mem. rewrite Hm. cbn [default from_option]. unfold id.
    replace (Z.to_nat (avail b + x))
      with (Z.to_nat (avail b) + Z.to_nat x)%nat by lia.
    apply ring_write_run; try lia.
    rewrite Hring. f_equal. lia. }
  destruct (Z.eqb_spec (Z.of_nat (length buff)) 0) as [Hz|Hz];
    (eexists; split; [reflexivity|]);
    (split; [split; [split; simpl; lia
                    |eexists; split; [reflexivity
                                     |rewrite ring_write_length; lia]]|]);
    (split; [reflexivity|]); (split; [reflexivity|]);
    (split; [cbn [cidx set_cidx set_widx set_buf]; auto|]);
    exact Hpend.
Qed.

Lemma pending_set_ridx b x :
  cirbuf_ok b -> 0 <= x <= avail b ->
  pending (set_ridx b ((ridx b + x) mod buffersize))
  = drop (Z.to_nat x) (pending b).
Proof.
  intros [[Hw Hr] (m & Hm & Hmlen)] Hx.
  pose proof (avail_range b) as Hav.
  assert (avail (set_ridx b ((ridx b + x) mod buffersize)) = avail b - x)
    as Hav'.
  { unfold avail. cbn [widx ridx set_ridx].
    rewrite Zminus_mod_idemp_r.
    replace (widx b - (ridx b + x)) with (widx b - ridx b - x) by lia.
    rewrite <- Zminus_mod_idemp_l. fold (avail b).
    apply Z.mod_small. lia. }
  unfold pending at 1. rewrite Hav'. unfold pending, mem.
  cbn [widx ridx buf set_ridx]. rewrite Hm. cbn [default from_option].
  unfold id. rewrite ring_run_drop by lia.
  f_equal; [|lia].
  rewrite ring_idx_mod by lia. f_equal. lia.
Qed.

Lemma read_copy_spec dev p count :
  cirbuf_ok (get_cirbuf dev p) ->
  0 <= count <= INT_MAX ->
  read_copy dev p count
  = (Ret (Z.min count (avail (get_cirbuf dev p))),
     set_cirbuf dev p
       (set_ridx (get_cirbuf dev p)
          ((ridx (get_cirbuf dev p) + Z.min count (avail (get_cirbuf dev p)))
           mod buffersize)),
     take (Z.to_nat (Z.min count (avail (get_cirbuf dev p))))
          (pending (get_cirbuf dev p))).
Proof.
  intros Hok Hcount. unfold read_copy.
  set (b := get_cirbuf dev p) in *.
  pose proof (avail_range b) as Hav.
  pose proof (avail_spec b (proj1 Hok)) as Hspec.
  destruct Hok as [[Hw Hr] (m & Hm & Hmlen)].
  unfold INT_MAX in Hcount.
  replace (if int_sub (widx b) (ridx b) <? 0
           then int_add (int_sub (widx b) (ridx b)) buffersize
           else int_sub (widx b) (ridx b)) with (avail b).
  2:{ rewrite Hspec. int_simpl.
      destruct (Z.ltb_spec (widx b - ridx b) 0); int_simpl; lia. }
  clear Hspec.
  rewrite (to_int_small count) by lia.
  set (x := Z.min count (avail b)) in *.
  assert (0 <= x <= avail b) as Hx by lia.
  rewrite wrap_cursor by lia.
  int_simpl.
  set (cpcnt := if buffersize - ridx b <? x then buffersize - ridx b else x).
  assert (cpcnt = Z.min (buffersize - ridx b) x) as Hcp
    by (unfold cpcnt; destruct (Z.ltb_spec (buffersize - ridx b) x); lia).
  rewrite !(to_int_small (x - cpcnt)) by lia.
  unfold mem. rewrite Hm. cbn [default from_option]. unfold id.
  assert ((if cpcnt =? 0 then Some [] else copy_to_user m (ridx b) cpcnt)
          = Some (let c := if decide (length m - Z.to_nat (ridx b)
                                      < Z.to_nat x)%nat
                           then (length m - Z.to_nat (ridx b))%nat
                           else Z.to_nat x in
                  if decide (c = 0%nat) then []
                  else take c (drop (Z.to_nat (ridx b)) m))) as ->.
  { cbv zeta. unfold copy_to_user.
    destruct (Z.eqb_spec cpcnt 0); repeat case_decide; try lia; try done;
      (destruct (Z.ltb_spec cpcnt 0); [lia|]); do 2 f_equal; lia. }
  assert ((if x - cpcnt >? 0 then copy_to_user m 0 (x - cpcnt) else Some [])
          = Some (let c := if decide (length m - Z.to_nat (ridx b)
                                      < Z.to_nat x)%nat
                           then (length m - Z.to_nat (ridx b))%nat
                           else Z.to_nat x in
                  if decide (0 < Z.to_nat x - c)%nat
                  then take (Z.to_nat x - c) (drop 0 m) else [])) as ->.
  { cbv zeta. unfold copy_to_user.
    destruct (Z.gtb_spec (x - cpcnt) 0); repeat case_decide; try lia; try done;
      (destruct (Z.ltb_spec (x - cpcnt) 0); [lia|]); do 2 f_equal; lia. }
  cbv zeta. f_equal.
  change (ring_read m (Z.to_nat (ridx b)) (Z.to_nat x)
          = take (Z.to_nat x) (pending b)).
  rewrite ring_read_run by lia.
  unfold pending, mem. rewrite Hm. cbn [default from_option]. unfold id.
  rewrite ring_run_take by lia. done.
Qed.

(** *** Full and empty *)

Lemma is_full_space b :
  cursors_ok b -> is_full b = if space b =? 0 then 1 else 0.
Proof.
  intros Hc. rewrite space_spec by done. destruct Hc as [Hw Hr].
  unfold is_full. int_simpl.
  destruct (Z.eqb_spec (ridx b - widx b) 1);
    destruct (Z.eqb_spec (ridx b) 0);
    destruct (Z.eqb_spec (widx b) (buffersize - 1));
    destruct (Z.ltb_spec (ridx b - 1 - widx b) 0);
    simpl; repeat case_match; lia.
Qed.

Lemma avail_zero b : cursors_ok b -> (avail b = 0 <-> ridx b = widx b).
Proof.
  intros Hc. rewrite avail_spec by done. destruct Hc as [Hw Hr].
  destruct (Z.ltb_spec (widx b - ridx b) 0); lia.
Qed.

(** *** Which part of read and write runs *)

Lemma proxy_write_pass dev filp d buff :
  outbound dev filp = Some d -> nopen dev = 2 ->
  is_full (get_cirbuf dev d) = 0 ->
  proxy_write dev filp buff = write_copy dev d buff.
Proof.
  unfold outbound, proxy_write. intros Hd Hn Hf.
  destruct (Z.eqb_spec (f_addr filp) (east dev));
    [|destruct (Z.eqb_spec (f_addr filp) (west dev))];
    simplify_eq; simpl in Hf; rewrite Hn, Hf; reflexivity.
Qed.

Lemma proxy_write_wait dev filp d buff :
  outbound dev filp = Some d ->
  nopen dev <> 2 \/ is_full (get_cirbuf dev d) = 1 ->
  proxy_write dev filp buff
  = (if Z.land (f_flags filp) O_NONBLOCK =? 0
     then Sleeps else Ret (- EWOULDBLOCK), dev).
Proof using Type.
  clear buffersize_range.
  unfold outbound, proxy_write. intros Hd Hw.
  assert (negb (nopen dev =? 2) || (is_full (get_cirbuf dev d) =? 1) = true)
    as Hc.
  { destruct Hw as [Hw|Hw].
    - destruct (Z.eqb_spec (nopen dev) 2); [lia|done].
    - rewrite Hw. apply orb_true_r. }
  destruct (Z.eqb_spec (f_addr filp) (east dev));
    [|destruct (Z.eqb_spec (f_addr filp) (west dev))];
    simplify_eq; simpl in Hc; rewrite Hc; by case_match.
Qed.

Lemma proxy_write_none dev filp buff :
  outbound dev filp = None -> proxy_write dev filp buff = (Ret 0, dev).
Proof.
  unfold outbound, proxy_write.
  repeat case_match; done.
Qed.

Lemma proxy_read_eof dev filp d count :
  inbound dev filp = Some d ->
  ridx (get_cirbuf dev d) = cidx (get_cirbuf dev d) ->
  proxy_read dev filp count = (Ret 0, dev, []).
Proof.
  unfold inbound, proxy_read. intros Hd He.
  destruct (Z.eqb_spec (f_addr filp) (east dev));
    [|destruct (Z.eqb_spec (f_addr filp) (west dev))];
    simplify_eq; simpl in He; rewrite He, Z.eqb_refl; reflexivity.
Qed.

Lemma proxy_read_wait dev filp d count :
  inbound dev filp = Some d ->
  ridx (get_cirbuf dev d) <> cidx (get_cirbuf dev d) ->
  ridx (get_cirbuf dev d) = widx (get_cirbuf dev d) ->
  proxy_read dev filp count
  = (if Z.land (f_flags filp) O_NONBLOCK =? 0
     then Sleeps else Ret (- EWOULDBLOCK), dev, []).
Proof using Type.
  clear buffersize_range.
  unfold inbound, proxy_read. intros Hd Hc He.
  destruct (Z.eqb_spec (f_addr filp) (east dev));
    [|destruct (Z.eqb_spec (f_addr filp) (west dev))];
    simplify_eq; simpl in *;
    match goal with
    | |- context [ridx ?b =? cidx ?b] =>
      destruct (Z.eqb_spec (ridx b) (cidx b))
    end;
    try done; rewrite He, Z.eqb_refl; by case_match.
Qed.

Lemma proxy_read_pass dev filp d count :
  inbound dev filp = Some d ->
  ridx (get_cirbuf dev d) <> cidx (get_cirbuf dev d) ->
  ridx (get_cirbuf dev d) <> widx (get_cirbuf dev d) ->
  proxy_read dev filp count = read_copy dev d count.
Proof.
  unfold inbound, proxy_read. intros Hd Hc He.
  destruct (Z.eqb_spec (f_addr filp) (east dev));
    [|destruct (Z.eqb_spec (f_addr filp) (west dev))];
    simplify_eq; simpl in *;
    match goal with
    | |- context [ridx ?b =? cidx ?b] =>
      destruct (Z.eqb_spec (ridx b) (cidx b));
      destruct (Z.eqb_spec (ridx b) (widx b))
    end;
    done.
Qed.

Lemma proxy_read_none dev filp count :
  inbound dev filp = None -> proxy_read dev filp count = (Ret 0, dev, []).
Proof.
  unfold inbound, proxy_read.
  repeat case_match; done.
Qed.

(** With a consistent open count, the test [nopen == 2] of a connected
    endpoint is the test that the other side is connected. *)
Lemma nopen_peer dev filp d :
  sides_ok dev -> f_addr filp <> 0 -> outbound dev filp = Some d ->
  (nopen dev = 2 <-> peer dev filp <> 0).
Proof using Type.
  clear buffersize_range.
  intros [Hn Hne] Hf. unfold outbound, peer.
  destruct (Z.eqb_spec (f_addr filp) (east dev));
    [|destruct (Z.eqb_spec (f_addr filp) (west dev))];
    intros [= <-]; rewrite Hn;
    destruct (Z.eqb_spec (east dev) 0);
    destruct (Z.eqb_spec (west dev) 0); lia.
Qed.

(** *** Calls from a file that is on neither side *)

(** C10: a read or a write whose file is neither the east nor the west
    side of the device returns 0, which is a byte count and not an error
    code, and leaves the whole device (cursors, close markers, sides and
    open count) as it was. *)
Theorem unknown_endpoint_noop dev filp :
  f_addr filp <> east dev -> f_addr filp <> west dev ->
  (forall count, proxy_read dev filp count = (Ret 0, dev, []))
  /\ (forall buff, proxy_write dev filp buff = (Ret 0, dev)).
Proof.
  intros He Hw.
  assert (inbound dev filp = None /\ outbound dev filp = None) as [Hi Ho].
  { unfold inbound, outbound.
    destruct (Z.eqb_spec (f_addr filp) (east dev)); [done|].
    destruct (Z.eqb_spec (f_addr filp) (west dev)); done. }
  split; intros.
  - by apply proxy_read_none.
  - by apply proxy_write_none.
Qed.

(** *** Non-blocking mode *)

(** With O_NONBLOCK set, a read on a buffer that is empty and not at the
    close marker returns -EWOULDBLOCK and moves nothing, in every state;
    on a device whose open count matches its sides, a write made while
    the other side is not connected, or while the buffer is full, returns
    -EWOULDBLOCK and moves nothing, whether or not the buffer has free
    space.  A state where the count does not match is shown with the
    sample runs at the end. *)
Theorem nonblocking_would_block dev filp d_in d_out :
  Z.land (f_flags filp) O_NONBLOCK <> 0 ->
  (inbound dev filp = Some d_in ->
   ridx (get_cirbuf dev d_in) = widx (get_cirbuf dev d_in) ->
   ridx (get_cirbuf dev d_in) <> cidx (get_cirbuf dev d_in) ->
   forall count, proxy_read dev filp count = (Ret (- EWOULDBLOCK), dev, []))
  /\ (outbound dev filp = Some d_out ->
      sides_ok dev -> f_addr filp <> 0 ->
      peer dev filp = 0 \/ is_full (get_cirbuf dev d_out) = 1 ->
      forall buff, proxy_write dev filp buff = (Ret (- EWOULDBLOCK), dev)).
Proof using Type.
  clear buffersize_range.
  intros Hnb. apply Z.eqb_neq in Hnb. split.
  - intros Hd He Hc count.
    rewrite (proxy_read_wait dev filp d_in) by done. by rewrite Hnb.
  - intros Hd Hs Hf Hw buff.
    rewrite (proxy_write_wait dev filp d_out); [by rewrite Hnb|done|].
    destruct Hw as [Hw|Hw]; [left|by right].
    rewrite (nopen_peer dev filp d_out) by done. tauto.
Qed.

(** *** Transfer length of a write *)

(** C4: a write of [n >= 1] bytes made while the other side is connected
    and the buffer is not full transfers [min n ((ridx - widx - 1) mod C)]
    bytes, which is at least one; it returns that count as its result,
    advances [widx] by it modulo the buffer size, appends that prefix of
    the data to the bytes waiting in the buffer, and leaves the read
    cursor and the close marker alone. *)
Theorem write_transfer dev filp d buff :
  sides_ok dev -> f_addr filp <> 0 ->
  outbound dev filp = Some d ->
  peer dev filp <> 0 ->
  cirbuf_ok (get_cirbuf dev d) ->
  is_full (get_cirbuf dev d) = 0 ->
  1 <= Z.of_nat (length buff) <= INT_MAX ->
  let b := get_cirbuf dev d in
  let xfer := Z.min (Z.of_nat (length buff))
                    ((ridx b - widx b - 1) mod buffersize) in
  exists b',
    proxy_write dev filp buff = (Ret xfer, set_cirbuf dev d b')
    /\ 1 <= xfer <= Z.of_nat (length buff)
    /\ widx b' = (widx b + xfer) mod buffersize
    /\ ridx b' = ridx b
    /\ cidx b' = cidx b
    /\ pending b' = pending b ++ take (Z.to_nat xfer) buff.
Proof.
  intros Hs Hf Hd Hp Hok Hfull Hlen b xfer.
  assert (nopen dev = 2) as Hn by (by apply (nopen_peer dev filp d)).
  rewrite (proxy_write_pass dev filp d) by done.
  destruct (write_copy_spec dev d buff Hok ltac:(lia))
    as (b' & Hw & _ & Hr' & Hw' & Hc' & Hp').
  rewrite (is_full_space _ (proj1 Hok)) in Hfull.
  subst b xfer. fold (space (get_cirbuf dev d)).
  set (b := get_cirbuf dev d) in *.
  pose proof (space_range b).
  destruct (Z.eqb_spec (space b) 0); [done|].
  destruct (Z.eqb_spec (Z.of_nat (length buff)) 0); [lia|].
  exists b'. repeat split; try done; lia.
Qed.

(** *** Readiness *)

Lemma mask_bits (cw cr : bool) :
  let ready_mask := if cw then Z.lor POLLOUT POLLWRNORM else 0 in
  let mask := if cr then Z.lor ready_mask (Z.lor POLLIN POLLRDNORM)
              else ready_mask in
  writable mask = cw /\ readable mask = cr.
Proof. destruct cw, cr; vm_compute; auto. Qed.

Lemma proxy_poll_west dev filp :
  f_addr filp = west dev ->
  writable (proxy_poll dev filp)
  = (is_full (webuf dev) =? 0) && (nopen dev =? 2)
    && negb (cidx (webuf dev) =? widx (webuf dev))
    && negb (Z.land (eastaccmode dev) O_ACCMODE =? O_WRONLY)
    && negb (Z.land (f_flags filp) O_ACCMODE =? O_RDONLY)
  /\ readable (proxy_poll dev filp)
     = (negb (widx (ewbuf dev) =? ridx (ewbuf dev))
        || (ridx (ewbuf dev) =? cidx (ewbuf dev)))
       && negb (Z.land (eastaccmode dev) O_ACCMODE =? O_RDONLY)
       && negb (Z.land (f_flags filp) O_ACCMODE =? O_WRONLY).
Proof.
  intros Hw. unfold proxy_poll. rewrite Hw, Z.eqb_refl.
  apply mask_bits.
Qed.

Lemma proxy_poll_east dev filp :
  f_addr filp = east dev -> f_addr filp <> west dev ->
  writable (proxy_poll dev filp)
  = (is_full (ewbuf dev) =? 0) && (nopen dev =? 2)
    && negb (cidx (ewbuf dev) =? widx (ewbuf dev))
    && negb (Z.land (westaccmode dev) O_ACCMODE =? O_WRONLY)
    && negb (Z.land (f_flags filp) O_ACCMODE =? O_RDONLY)
  /\ readable (proxy_poll dev filp)
     = (negb (widx (webuf dev) =? ridx (webuf dev))
        || (ridx (webuf dev) =? cidx (webuf dev)))
       && negb (Z.land (westaccmode dev) O_ACCMODE =? O_RDONLY)
       && negb (Z.land (f_flags filp) O_ACCMODE =? O_WRONLY).
Proof.
  intros He Hw. unfold proxy_poll.
  destruct (Z.eqb_spec (f_addr filp) (west dev)); [done|].
  rewrite He, Z.eqb_refl.
  apply mask_bits.
Qed.

Ltac bool_to_prop :=
  rewrite ?andb_true_iff, ?orb_true_iff, ?negb_true_iff,
          ?Z.eqb_eq, ?Z.eqb_neq.

(** On a device whose open count matches its sides, poll reports to a
    connected endpoint writable exactly when the outbound buffer is not
    full, the other side is connected, the close marker of the outbound
    buffer is not at its write cursor, the access mode of this file is
    not read-only and the mode recorded for the other side is not
    write-only; it reports readable exactly when the inbound buffer has
    its read cursor away from the write cursor or at the close marker,
    the access mode of this file is not write-only and the mode recorded
    for the other side is not read-only.  A state where the count does
    not match is shown with the sample runs at the end. *)
Theorem poll_readiness dev filp :
  sides_ok dev -> f_addr filp <> 0 ->
  (f_addr filp = west dev ->
   (writable (proxy_poll dev filp) = true <->
      is_full (webuf dev) = 0 /\ east dev <> 0
      /\ cidx (webuf dev) <> widx (webuf dev)
      /\ Z.land (f_flags filp) O_ACCMODE <> O_RDONLY
      /\ Z.land (eastaccmode dev) O_ACCMODE <> O_WRONLY)
   /\ (readable (proxy_poll dev filp) = true <->
         (ridx (ewbuf dev) <> widx (ewbuf dev)
          \/ ridx (ewbuf dev) = cidx (ewbuf dev))
         /\ Z.land (f_flags filp) O_ACCMODE <> O_WRONLY
         /\ Z.land (eastaccmode dev) O_ACCMODE <> O_RDONLY))
  /\ (f_addr filp = east dev ->
      (writable (proxy_poll dev filp) = true <->
         is_full (ewbuf dev) = 0 /\ west dev <> 0
         /\ cidx (ewbuf dev) <> widx (ewbuf dev)
         /\ Z.land (f_flags filp) O_ACCMODE <> O_RDONLY
         /\ Z.land (westaccmode dev) O_ACCMODE <> O_WRONLY)
      /\ (readable (proxy_poll dev filp) = true <->
            (ridx (webuf dev) <> widx (webuf dev)
             \/ ridx (webuf dev) = cidx (webuf dev))
            /\ Z.land (f_flags filp) O_ACCMODE <> O_WRONLY
            /\ Z.land (westaccmode dev) O_ACCMODE <> O_RDONLY)).
Proof using Type.
  clear buffersize_range.
  intros [Hn Hne] Hf. split.
  - intros Hw. destruct (proxy_poll_west dev filp Hw) as [-> ->].
    assert (nopen dev = 2 <-> east dev <> 0) as Hpeer.
    { rewrite Hn.
      destruct (Z.eqb_spec (east dev) 0);
        destruct (Z.eqb_spec (west dev) 0); lia. }
    bool_to_prop. rewrite Hpeer. split; [tauto|intuition lia].
  - intros He.
    assert (f_addr filp <> west dev) as Hw
      by (intros Hw; apply Hne; congruence).
    destruct (proxy_poll_east dev filp He Hw) as [-> ->].
    assert (nopen dev = 2 <-> west dev <> 0) as Hpeer.
    { rewrite Hn.
      destruct (Z.eqb_spec (east dev) 0);
        destruct (Z.eqb_spec (west dev) 0); lia. }
    bool_to_prop. rewrite Hpeer. split; [tauto|intuition lia].
Qed.

(** *** Admission *)

(** C6, as amended: on a device whose open count is the number of
    occupied sides, an open made while both sides are occupied returns
    -EBUSY and leaves the device unchanged; otherwise, when each buffer
    is allocated already or its allocation succeeds, the open returns 0,
    counts one more open and stores the file in a free side, the east one
    when that is free; when an allocation fails the open returns
    -ENOMEM. *)
Theorem connect_admission mem_ew mem_we dev filp :
  sides_ok dev ->
  (east dev <> 0 /\ west dev <> 0 ->
   proxy_open mem_ew mem_we dev filp = (- EBUSY, dev))
  /\ (east dev = 0 \/ west dev = 0 ->
      let ew := match buf (ewbuf dev) with
                | Some m => Some m | None => mem_ew end in
      let we := match buf (webuf dev) with
                | Some m => Some m | None => mem_we end in
      (ew <> None -> we <> None ->
       exists dev',
         proxy_open mem_ew mem_we dev filp = (0, dev')
         /\ nopen dev' = nopen dev + 1
         /\ (east dev = 0 ->
             east dev' = f_addr filp /\ west dev' = west dev
             /\ eastaccmode dev' = f_flags filp)
         /\ (east dev <> 0 ->
             west dev' = f_addr filp /\ east dev' = east dev
             /\ westaccmode dev' = f_flags filp))
      /\ (ew = None \/ we = None ->
          fst (proxy_open mem_ew mem_we dev filp) = - ENOMEM)).
Proof.
  intros [Hn Hne]. split.
  - intros [He Hw]. unfold proxy_open.
    destruct (Z.eqb_spec (east dev) 0); [done|].
    destruct (Z.eqb_spec (west dev) 0); [done|].
    rewrite Hn. reflexivity.
  - intros Hfree ew we. unfold proxy_open.
    assert (nopen dev <= 1) as Hle.
    { rewrite Hn.
      destruct (Z.eqb_spec (east dev) 0);
        destruct (Z.eqb_spec (west dev) 0); lia. }
    assert (0 <= nopen dev) as Hge.
    { rewrite Hn.
      destruct (Z.eqb_spec (east dev) 0);
        destruct (Z.eqb_spec (west dev) 0); lia. }
    destruct (Z.leb_spec 2 (nopen dev)); [lia|].
    cbn [buf ewbuf webuf set_nopen set_ewbuf set_webuf set_buf east west].
    fold ew. fold we.
    split.
    + intros Hew Hwe.
      destruct ew as [m1|]; [|done]. destruct we as [m2|]; [|done].
      destruct (Z.eqb_spec (east dev) 0) as [He|He].
      * eexists. split; [reflexivity|]. simpl. int_simpl.
        repeat split; try done.
      * destruct (Z.eqb_spec (west dev) 0) as [Hw|Hw]; [|lia].
        eexists. split; [reflexivity|]. simpl. int_simpl.
        repeat split; try done.
    + intros Hnone.
      destruct ew as [m1|]; [|done].
      destruct we as [m2|]; [|done].
      destruct Hnone; done.
Qed.

(** C8: when an open succeeds and stores the file in a side, the read
    cursor of the buffer that side reads from becomes that buffer's write
    cursor, the close markers of both buffers become -1, and the write
    cursors and the bytes of buffers that were allocated stay as they
    were (a buffer that was not allocated receives its block); the read
    cursor of the other buffer is not moved. *)
Theorem connect_resets mem_ew mem_we dev filp dev' :
  proxy_open mem_ew mem_we dev filp = (0, dev') ->
  east dev = 0 \/ west dev = 0 ->
  (if east dev =? 0
   then east dev' = f_addr filp
        /\ ridx (webuf dev') = widx (webuf dev)
        /\ ridx (ewbuf dev') = ridx (ewbuf dev)
   else west dev' = f_addr filp
        /\ ridx (ewbuf dev') = widx (ewbuf dev)
        /\ ridx (webuf dev') = ridx (webuf dev))
  /\ cidx (ewbuf dev') = -1 /\ cidx (webuf dev') = -1
  /\ widx (ewbuf dev') = widx (ewbuf dev)
  /\ widx (webuf dev') = widx (webuf dev)
  /\ (forall m, buf (ewbuf dev) = Some m -> buf (ewbuf dev') = Some m)
  /\ (forall m, buf (webuf dev) = Some m -> buf (webuf dev') = Some m)
  /\ (buf (ewbuf dev) = None -> buf (ewbuf dev') = mem_ew)
  /\ (buf (webuf dev) = None -> buf (webuf dev') = mem_we).
Proof.
  unfold proxy_open. intros Hopen Hfree.
  destruct (Z.leb_spec 2 (nopen dev)); [done|].
  cbn [buf ewbuf webuf set_nopen set_ewbuf set_webuf set_buf east west]
    in Hopen.
  destruct (buf (ewbuf dev)) as [m1|] eqn:Hb1;
    [|destruct mem_ew as [m1|]; [|done]];
    (destruct (buf (webuf dev)) as [m2|] eqn:Hb2;
     [|destruct mem_we as [m2|]; [|done]]);
    (destruct (Z.eqb_spec (east dev) 0) as [He|He];
     [|destruct (Z.eqb_spec (west dev) 0) as [Hw|Hw]; [|lia]]);
    injection Hopen as <-; simpl; repeat split; congruence.
Qed.

(** *** What read and write leave alone *)

Lemma same_sides_refl dev : same_sides dev dev.
Proof. by repeat split. Qed.

Lemma same_sides_set_cirbuf dev p b : same_sides dev (set_cirbuf dev p b).
Proof. destruct p; by repeat split. Qed.

Lemma get_set_cirbuf dev p b : get_cirbuf (set_cirbuf dev p b) p = b.
Proof. by destruct p. Qed.

Lemma get_set_cirbuf_other dev p b :
  get_cirbuf (set_cirbuf dev p b) (other p) = get_cirbuf dev (other p).
Proof. by destruct p. Qed.

Lemma write_copy_frame dev p buff :
  same_sides dev (snd (write_copy dev p buff))
  /\ get_cirbuf (snd (write_copy dev p buff)) (other p)
     = get_cirbuf dev (other p)
  /\ ridx (get_cirbuf (snd (write_copy dev p buff)) p)
     = ridx (get_cirbuf dev p)
  /\ (buff <> [] ->
      cidx (get_cirbuf (snd (write_copy dev p buff)) p)
      = cidx (get_cirbuf dev p)).
Proof.
  unfold write_copy.
  assert (buff <> [] -> (Z.of_nat (length buff) =? 0) = false) as Hnz.
  { intros Hb. apply Z.eqb_neq. destruct buff; [done|simpl; lia]. }
  repeat case_match; cbn [snd];
    rewrite ?get_set_cirbuf, ?get_set_cirbuf_other;
    (split; [first [apply same_sides_refl | apply same_sides_set_cirbuf]|]);
    (split; [done|]); (split; [done|]);
    intros Hb; specialize (Hnz Hb); try congruence; done.
Qed.

Lemma read_copy_frame dev p count :
  same_sides dev (snd (fst (read_copy dev p count)))
  /\ get_cirbuf (snd (fst (read_copy dev p count))) (other p)
     = get_cirbuf dev (other p)
  /\ widx (get_cirbuf (snd (fst (read_copy dev p count))) p)
     = widx (get_cirbuf dev p)
  /\ cidx (get_cirbuf (snd (fst (read_copy dev p count))) p)
     = cidx (get_cirbuf dev p)
  /\ buf (get_cirbuf (snd (fst (read_copy dev p count))) p)
     = buf (get_cirbuf dev p).
Proof.
  unfold read_copy.
  repeat case_match; cbn [fst snd];
    rewrite ?get_set_cirbuf, ?get_set_cirbuf_other;
    (split; [first [apply same_sides_refl | apply same_sides_set_cirbuf]|]);
    done.
Qed.

Lemma proxy_write_cases dev filp buff :
  proxy_write dev filp buff = (Ret 0, dev)
  \/ proxy_write dev filp buff = (Sleeps, dev)
  \/ proxy_write dev filp buff = (Ret (- EWOULDBLOCK), dev)
  \/ exists d, outbound dev filp = Some d /\ nopen dev = 2
               /\ proxy_write dev filp buff = write_copy dev d buff.
Proof using Type.
  clear buffersize_range.
  unfold proxy_write, outbound.
  destruct (Z.eqb_spec (nopen dev) 2); simpl;
    repeat case_match; eauto 8.
Qed.

Lemma proxy_write_wake_cases ev dev p buff :
  proxy_write_wake ev dev p buff = (Ret (- ERESTARTSYS), dev)
  \/ proxy_write_wake ev dev p buff = (Sleeps, dev)
  \/ nopen dev = 2
     /\ proxy_write_wake ev dev p buff = write_copy dev p buff.
Proof using Type.
  clear buffersize_range.
  unfold proxy_write_wake. destruct ev; [by left|].
  destruct (Z.eqb_spec (nopen dev) 2); simpl; [|by auto].
  case_match; auto.
Qed.

Lemma proxy_read_wake_cases ev dev p count :
  proxy_read_wake ev dev p count = (Ret (- ERESTARTSYS), dev, [])
  \/ proxy_read_wake ev dev p count = (Sleeps, dev, [])
  \/ ridx (get_cirbuf dev p) <> widx (get_cirbuf dev p)
     /\ proxy_read_wake ev dev p count = read_copy dev p count.
Proof using Type.
  clear buffersize_range.
  unfold proxy_read_wake. destruct ev; [by left|].
  destruct (Z.eqb_spec (ridx (get_cirbuf dev p)) (widx (get_cirbuf dev p)));
    auto.
Qed.

Lemma proxy_read_cases dev filp count :
  proxy_read dev filp count = (Ret 0, dev, [])
  \/ proxy_read dev filp count = (Sleeps, dev, [])
  \/ proxy_read dev filp count = (Ret (- EWOULDBLOCK), dev, [])
  \/ exists d, inbound dev filp = Some d
               /\ ridx (get_cirbuf dev d) <> cidx (get_cirbuf dev d)
               /\ proxy_read dev filp count = read_copy dev d count.
Proof using Type.
  clear buffersize_range.
  unfold proxy_read, inbound.
  destruct (Z.eqb_spec (f_addr filp) (east dev));
    [|destruct (Z.eqb_spec (f_addr filp) (west dev))]; auto;
    match goal with
    | |- context [ridx ?b =? cidx ?b] =>
      destruct (Z.eqb_spec (ridx b) (cidx b)); auto;
      destruct (Z.eqb_spec (ridx b) (widx b))
    end;
    try (case_match; by auto); eauto 8.
Qed.

(** No write of one byte or more and no read changes a close marker. *)
Lemma proxy_write_cidx dev filp buff p :
  buff <> [] ->
  cidx (get_cirbuf (snd (proxy_write dev filp buff)) p)
  = cidx (get_cirbuf dev p).
Proof.
  intros Hb.
  destruct (proxy_write_cases dev filp buff)
    as [->|[->|[->|(d & _ & _ & ->)]]]; try done.
  destruct (write_copy_frame dev d buff) as (_ & Ho & _ & Hc).
  destruct d, p; simpl in *; auto; by rewrite Ho.
Qed.

Lemma proxy_read_cidx dev filp count p :
  cidx (get_cirbuf (snd (fst (proxy_read dev filp count))) p)
  = cidx (get_cirbuf dev p).
Proof.
  destruct (proxy_read_cases dev filp count)
    as [->|[->|[->|(d & _ & _ & ->)]]]; try done.
  destruct (read_copy_frame dev d count) as (_ & Ho & _ & Hc & _).
  destruct d, p; simpl in *; auto; by rewrite Ho.
Qed.

(** *** Reading up to the write cursor *)

Lemma ridx_plus_avail b :
  cursors_ok b -> (ridx b + avail b) mod buffersize = widx b.
Proof.
  intros [Hw Hr]. unfold avail. rewrite Zplus_mod_idemp_r.
  replace (ridx b + (widx b - ridx b)) with (widx b) by lia.
  apply Z.mod_small. lia.
Qed.

Lemma inbound_same_sides dev dev' filp :
  same_sides dev dev' -> inbound dev' filp = inbound dev filp.
Proof. intros (_ & He & Hw & _). unfold inbound. by rewrite He, Hw. Qed.

Lemma outbound_same_sides dev dev' filp :
  same_sides dev dev' -> outbound dev' filp = outbound dev filp.
Proof. intros (_ & He & Hw & _). unfold outbound. by rewrite He, Hw. Qed.

(** A read that asks for at least the bytes waiting takes them all and
    leaves the read cursor on the write cursor. *)
Lemma proxy_read_all dev rd d count :
  inbound dev rd = Some d ->
  cirbuf_ok (get_cirbuf dev d) ->
  ridx (get_cirbuf dev d) <> cidx (get_cirbuf dev d) ->
  0 < avail (get_cirbuf dev d) ->
  avail (get_cirbuf dev d) <= count <= INT_MAX ->
  proxy_read dev rd count
  = (Ret (avail (get_cirbuf dev d)),
     set_cirbuf dev d
       (set_ridx (get_cirbuf dev d) (widx (get_cirbuf dev d))),
     pending (get_cirbuf dev d)).
Proof.
  intros Hd Hok Hc Ha Hcount.
  set (b := get_cirbuf dev d) in *.
  assert (ridx b <> widx b) as Hne
    by (rewrite <- (avail_zero b (proj1 Hok)); lia).
  rewrite (proxy_read_pass dev rd d) by done.
  rewrite read_copy_spec by (try done; lia). fold b.
  rewrite Z.min_r by lia.
  rewrite ridx_plus_avail by apply Hok.
  rewrite take_ge; [done|].
  pose proof (pending_length b Hok). lia.
Qed.

(** *** A run of writes *)

Lemma set_set_cirbuf dev p b1 b2 :
  set_cirbuf (set_cirbuf dev p b1) p b2 = set_cirbuf dev p b2.
Proof. by destruct p. Qed.

Lemma set_get_cirbuf dev p : set_cirbuf dev p (get_cirbuf dev p) = dev.
Proof. by destruct p, dev. Qed.

Lemma space_avail b : cursors_ok b -> space b = buffersize - 1 - avail b.
Proof. intros Hc. pose proof (avail_space b Hc). lia. Qed.

(** Writes of one byte or more that fit in the free space are all taken
    in full and queue up behind the bytes already waiting. *)
Lemma write_all_spec bufs : forall dev wr d,
  outbound dev wr = Some d ->
  nopen dev = 2 ->
  cirbuf_ok (get_cirbuf dev d) ->
  Forall (fun buff => buff <> []) bufs ->
  Z.of_nat (length (concat bufs)) <= space (get_cirbuf dev d) ->
  exists b',
    write_all dev wr bufs
    = (map (fun buff => Ret (Z.of_nat (length buff))) bufs,
       set_cirbuf dev d b')
    /\ cirbuf_ok b'
    /\ ridx b' = ridx (get_cirbuf dev d)
    /\ cidx b' = cidx (get_cirbuf dev d)
    /\ pending b' = pending (get_cirbuf dev d) ++ concat bufs.
Proof.
  induction bufs as [|buff bufs IH]; intros dev wr d Hd Hn Hok Hne Hlen.
  - exists (get_cirbuf dev d). simpl.
    rewrite set_get_cirbuf, app_nil_r. done.
  - apply Forall_cons in Hne as [Hb Hne].
    simpl in Hlen. rewrite length_app in Hlen.
    set (b := get_cirbuf dev d) in *.
    pose proof (space_range b) as Hsp.
    assert (1 <= Z.of_nat (length buff)) as Hb1
      by (destruct buff; [done|simpl; lia]).
    assert (is_full b = 0) as Hfull.
    { rewrite is_full_space by apply Hok.
      destruct (Z.eqb_spec (space b) 0); [lia|done]. }
    destruct (write_copy_spec dev d buff Hok ltac:(unfold INT_MAX; lia))
      as (b1 & Hw & Hok1 & Hr1 & _ & Hc1 & Hp1).
    fold b in Hw, Hr1, Hc1, Hp1.
    rewrite Z.min_l in Hw, Hp1 by lia.
    rewrite Nat2Z.id, take_ge in Hp1 by lia.
    destruct (Z.eqb_spec (Z.of_nat (length buff)) 0); [lia|].
    assert (space b1 = space b - Z.of_nat (length buff)) as Hsp1.
    { rewrite !space_avail by (apply Hok || apply Hok1).
      rewrite <- !pending_length by done.
      rewrite Hp1, length_app. lia. }
    destruct (IH (set_cirbuf dev d b1) wr d) as (b' & Hw' & Hok' & Hr' & Hc' & Hp').
    { by rewrite (outbound_same_sides dev) by apply same_sides_set_cirbuf. }
    { by destruct d. }
    { by rewrite get_set_cirbuf. }
    { done. }
    { rewrite get_set_cirbuf. lia. }
    rewrite get_set_cirbuf in Hr', Hc', Hp'.
    rewrite set_set_cirbuf in Hw'.
    exists b'. simpl.
    rewrite (proxy_write_pass dev wr d) by done.
    rewrite Hw, Hw'.
    split; [done|]. split; [done|]. split; [congruence|].
    split; [congruence|].
    by rewrite Hp', Hp1, app_assoc.
Qed.

(** *** Writes followed by one read *)

(** C1, as amended: from an empty buffer whose close marker is not at the
    read cursor, with both sides connected, a non-empty sequence of
    writes of at least one byte each and of total length [L <= C - 1] is
    taken in full, and a following read that asks for at least [L] bytes
    returns [L] and exactly the bytes written, in the order they were
    written, wherever the cursors started in the block. *)
Theorem write_read_roundtrip dev wr rd d bufs count :
  outbound dev wr = Some d ->
  inbound dev rd = Some d ->
  nopen dev = 2 ->
  cirbuf_ok (get_cirbuf dev d) ->
  ridx (get_cirbuf dev d) = widx (get_cirbuf dev d) ->
  cidx (get_cirbuf dev d) <> ridx (get_cirbuf dev d) ->
  bufs <> [] ->
  Forall (fun buff => buff <> []) bufs ->
  Z.of_nat (length (concat bufs)) <= buffersize - 1 ->
  Z.of_nat (length (concat bufs)) <= count <= INT_MAX ->
  exists dev1 dev2,
    write_all dev wr bufs
    = (map (fun buff => Ret (Z.of_nat (length buff))) bufs, dev1)
    /\ proxy_read dev1 rd count
       = (Ret (Z.of_nat (length (concat bufs))), dev2, concat bufs).
Proof.
  intros Hwr Hrd Hn Hok Hempty Hc Hbufs Hne Hlen Hcount.
  set (b := get_cirbuf dev d) in *.
  assert (avail b = 0) as Hav by (by apply avail_zero; [apply Hok|]).
  assert (pending b = []) as Hp.
  { apply nil_length_inv. pose proof (pending_length b Hok). lia. }
  destruct (write_all_spec bufs dev wr d) as (b' & Hw & Hok' & Hr' & Hc' & Hp');
    try done.
  { fold b. rewrite space_avail by apply Hok. lia. }
  fold b in Hr', Hc', Hp'. rewrite Hp in Hp'. simpl in Hp'.
  assert (avail b' = Z.of_nat (length (concat bufs))) as Hav'
    by (by rewrite <- pending_length, Hp').
  assert (0 < Z.of_nat (length (concat bufs))) as Hpos.
  { destruct bufs as [|buff bufs]; [done|].
    apply Forall_cons in Hne as [Hb _].
    simpl. rewrite length_app. destruct buff; [done|simpl; lia]. }
  eexists _, _. split; [exact Hw|].
  rewrite (proxy_read_all _ rd d); rewrite ?get_set_cirbuf; try done.
  - rewrite Hav', Hp'. reflexivity.
  - by rewrite (inbound_same_sides dev) by apply same_sides_set_cirbuf.
  - congruence.
  - lia.
  - lia.
Qed.

(** *** Full and empty detection *)

Lemma is_full_mod b :
  cursors_ok b ->
  (is_full b = 1 <-> (ridx b - widx b) mod buffersize = 1).
Proof.
  intros Hc. rewrite is_full_space by done.
  rewrite space_spec by done. destruct Hc as [Hw Hr].
  rewrite mod_unwrap by lia.
  destruct (Z.ltb_spec (ridx b - 1 - widx b) 0);
    destruct (Z.ltb_spec (ridx b - widx b) 0);
    match goal with |- context [?x =? 0] => destruct (Z.eqb_spec x 0) end;
    lia.
Qed.

(** C2: with both cursors inside the block, at most [C - 1] bytes wait in
    a buffer; it is empty exactly when [ridx = widx] and [is_full] answers
    1 exactly when [(ridx - widx) mod C = 1], which is when [C - 1] bytes
    wait.  Once writes have put [C - 1] bytes into an empty buffer and
    none was read, a further write of one byte or more sleeps (and a
    wake-up leaves it asleep), or returns -EWOULDBLOCK in non-blocking
    mode, and changes nothing; after a read has taken one byte, a write
    of one byte or more, new or woken, is accepted at once and transfers
    exactly one byte. *)
Theorem full_empty_detection dev wr rd d bufs :
  outbound dev wr = Some d ->
  inbound dev rd = Some d ->
  nopen dev = 2 ->
  cirbuf_ok (get_cirbuf dev d) ->
  ridx (get_cirbuf dev d) = widx (get_cirbuf dev d) ->
  cidx (get_cirbuf dev d) <> ridx (get_cirbuf dev d) ->
  Forall (fun buff => buff <> []) bufs ->
  Z.of_nat (length (concat bufs)) = buffersize - 1 ->
  (forall b, cursors_ok b ->
     0 <= avail b <= buffersize - 1
     /\ avail b + space b = buffersize - 1
     /\ (avail b = 0 <-> ridx b = widx b)
     /\ (is_full b = 1 <-> (ridx b - widx b) mod buffersize = 1)
     /\ (is_full b = 1 <-> avail b = buffersize - 1)
     /\ (is_full b = 0 <-> avail b < buffersize - 1))
  /\ exists dev1,
       write_all dev wr bufs
       = (map (fun buff => Ret (Z.of_nat (length buff))) bufs, dev1)
       /\ is_full (get_cirbuf dev1 d) = 1
       /\ (forall buff, buff <> [] ->
             proxy_write dev1 wr buff
             = (if Z.land (f_flags wr) O_NONBLOCK =? 0
                then Sleeps else Ret (- EWOULDBLOCK), dev1)
             /\ proxy_write_wake WakeUp dev1 d buff = (Sleeps, dev1))
       /\ exists dev2 c,
            proxy_read dev1 rd 1 = (Ret 1, dev2, [c])
            /\ concat bufs !! 0%nat = Some c
            /\ forall buff,
                 1 <= Z.of_nat (length buff) <= INT_MAX ->
                 exists dev3,
                   proxy_write dev2 wr buff = (Ret 1, dev3)
                   /\ proxy_write_wake WakeUp dev2 d buff = (Ret 1, dev3).
Proof.
  intros Hwr Hrd Hn Hok Hempty Hc Hne Hlen. split.
  - intros b Hb.
    pose proof (avail_range b). pose proof (space_range b).
    pose proof (avail_space b Hb).
    rewrite <- (is_full_mod b Hb), (is_full_space b Hb).
    split; [lia|]. split; [done|]. split; [by apply avail_zero|].
    split; [done|].
    destruct (Z.eqb_spec (space b) 0); lia.
  - set (b := get_cirbuf dev d) in *.
    assert (avail b = 0) as Hav by (by apply avail_zero; [apply Hok|]).
    assert (pending b = []) as Hp.
    { apply nil_length_inv. pose proof (pending_length b Hok). lia. }
    destruct (write_all_spec bufs dev wr d)
      as (b1 & Hw & Hok1 & Hr1 & Hc1 & Hp1); try done.
    { fold b. rewrite space_avail by apply Hok. lia. }
    fold b in Hr1, Hc1, Hp1. rewrite Hp in Hp1. simpl in Hp1.
    assert (avail b1 = buffersize - 1) as Hav1
      by (by rewrite <- pending_length, Hp1).
    assert (is_full b1 = 1) as Hfull1.
    { rewrite is_full_space, space_avail by apply Hok1.
      destruct (Z.eqb_spec (buffersize - 1 - avail b1) 0); [done|lia]. }
    set (dev1 := set_cirbuf dev d b1) in *.
    assert (same_sides dev dev1) as Hss1 by apply same_sides_set_cirbuf.
    assert (get_cirbuf dev1 d = b1) as Hb1 by apply get_set_cirbuf.
    assert (outbound dev1 wr = Some d) as Hwr1
      by (by rewrite (outbound_same_sides dev)).
    assert (inbound dev1 rd = Some d) as Hrd1
      by (by rewrite (inbound_same_sides dev)).
    exists dev1. split; [done|]. split; [by rewrite Hb1|]. split.
    { intros buff _. split.
      - apply (proxy_write_wait dev1 wr d); [done|].
        right. by rewrite Hb1.
      - unfold proxy_write_wake. rewrite Hb1, Hfull1.
        by rewrite orb_true_r. }
    assert (ridx b1 <> widx b1) as Hne1
      by (rewrite <- (avail_zero b1 (proj1 Hok1)); lia).
    assert (exists c rest, concat bufs = c :: rest) as (c & rest & Hcat).
    { destruct (concat bufs) as [|c rest] eqn:Hcat; [simpl in Hlen; lia|].
      eauto. }
    set (b2 := set_ridx b1 ((ridx b1 + 1) mod buffersize)).
    assert (cirbuf_ok b2) as Hok2.
    { split; [split; [apply Hok1|simpl; apply Z.mod_pos_bound; lia]
             |apply Hok1]. }
    assert (pending b2 = rest) as Hp2.
    { unfold b2. rewrite (pending_set_ridx b1 1) by (try done; lia).
      by rewrite Hp1, Hcat. }
    exists (set_cirbuf dev1 d b2), c.
    split; [|split; [by rewrite Hcat|]].
    { rewrite (proxy_read_pass dev1 rd d) by (rewrite ?Hb1; congruence).
      rewrite read_copy_spec by (rewrite ?Hb1; unfold INT_MAX; done || lia).
      rewrite Hb1, Hav1, Z.min_l by lia. fold b2.
      by rewrite Hp1, Hcat. }
    intros buff Hbuff.
    assert (space b2 = 1) as Hsp2.
    { rewrite space_avail by apply Hok2.
      rewrite <- pending_length, Hp2 by done.
      rewrite <- Hav1, <- pending_length, Hp1, Hcat by done.
      simpl. lia. }
    destruct (write_copy_spec (set_cirbuf dev1 d b2) d buff)
      as (b3 & Hw3 & _); [by rewrite get_set_cirbuf|lia|].
    rewrite get_set_cirbuf, Hsp2, Z.min_r in Hw3 by lia.
    assert (nopen (set_cirbuf dev1 d b2) = 2) as Hn2
      by (destruct d; simpl; done).
    assert (is_full (get_cirbuf (set_cirbuf dev1 d b2) d) = 0) as Hfull2
      by (rewrite get_set_cirbuf, is_full_space, Hsp2 by apply Hok2; done).
    eexists. split.
    + rewrite (proxy_write_pass _ wr d); [exact Hw3| |done|done].
      by rewrite (outbound_same_sides dev1) by apply same_sides_set_cirbuf.
    + unfold proxy_write_wake. rewrite Hn2, Hfull2. exact Hw3.
Qed.

(** *** End of file *)

Lemma direction_cases (p d : direction) : p = d \/ p = other d.
Proof. destruct p, d; auto. Qed.





Lemma sides_ok_bounds dev : sides_ok dev -> 0 <= nopen dev <= 2.
Proof.
  intros [Hn _]. rewrite Hn.
  destruct (Z.eqb_spec (east dev) 0); destruct (Z.eqb_spec (west dev) 0); lia.
Qed.






Lemma same_sides_trans dev1 dev2 dev3 :
  same_sides dev1 dev2 -> same_sides dev2 dev3 -> same_sides dev1 dev3.
Proof.
  intros (?&?&?&?&?) (?&?&?&?&?). repeat split; congruence.
Qed.

(** The disconnect of the endpoint that writes to [d]. *)
Lemma release_writer dev x d :
  sides_ok dev -> f_addr x <> 0 -> outbound dev x = Some d ->
  exists dev1,
    proxy_release dev x = (0, dev1)
    /\ get_cirbuf dev1 d
       = set_cidx (get_cirbuf dev d) (widx (get_cirbuf dev d))
    /\ sides_ok dev1 /\ writer_of dev1 d = 0
    /\ writer_of dev1 (other d) = writer_of dev (other d).
Proof.
  intros Hs Hf Hd. pose proof (sides_ok_bounds dev Hs) as Hb.
  destruct Hs as [Hn Hne].
  unfold proxy_release, outbound in *.
  cbn [east west set_nopen nopen].
  assert (int_sub (nopen dev) 1 = nopen dev - 1) as -> by (int_simpl; done).
  rewrite !(Z.eqb_sym (_ dev) (f_addr x)).
  destruct (Z.eqb_spec (f_addr x) (east dev)) as [He|He];
    [|destruct (Z.eqb_spec (f_addr x) (west dev)) as [Hw|Hw]];
    simplify_eq; eexists; (split; [reflexivity|]); simpl;
    unfold sides_ok; simpl; rewrite Hn.
  - destruct (Z.eqb_spec (east dev) 0); [lia|].
    repeat split; try done; lia.
  - destruct (Z.eqb_spec (west dev) 0); [lia|].
    repeat split; try done; lia.
Qed.

Lemma release_writer_reader dev x y d dev1 :
  f_addr y <> 0 -> outbound dev x = Some d -> inbound dev y = Some d ->
  proxy_release dev x = (0, dev1) ->
  inbound dev1 y = Some d.
Proof.
  unfold proxy_release, outbound, inbound.
  intros Hy Hx Hin Hrel.
  rewrite !(Z.eqb_sym (_ (set_nopen _ _)) (f_addr x)) in Hrel.
  cbn [east west set_nopen] in Hrel.
  destruct (Z.eqb_spec (f_addr x) (east dev)) as [He|He];
    [|destruct (Z.eqb_spec (f_addr x) (west dev)) as [Hw|Hw]];
    simplify_eq; simpl;
    destruct (Z.eqb_spec (f_addr y) (east dev));
    destruct (Z.eqb_spec (f_addr y) (west dev));
    destruct (Z.eqb_spec (f_addr y) 0); try done; congruence.
Qed.

(** Reading a buffer whose close marker is on the write cursor, [count]
    bytes at a time: the loop collects every waiting byte and stops with
    the read cursor on the marker. *)
Lemma drain_to_eof y d count fuel : forall dev,
  inbound dev y = Some d ->
  cirbuf_ok (get_cirbuf dev d) ->
  cidx (get_cirbuf dev d) = widx (get_cirbuf dev d) ->
  1 <= count <= INT_MAX ->
  (length (pending (get_cirbuf dev d)) < fuel)%nat ->
  exists dev2,
    read_until_eof fuel dev y count = (pending (get_cirbuf dev d), dev2)
    /\ same_sides dev dev2
    /\ ridx (get_cirbuf dev2 d) = cidx (get_cirbuf dev2 d)
    /\ cidx (get_cirbuf dev2 d) = widx (get_cirbuf dev2 d).
Proof.
  induction fuel as [|k IH]; intros dev Hy Hok Hcw Hcount Hfuel; [lia|].
  set (b := get_cirbuf dev d) in *.
  pose proof (avail_range b) as Hav.
  pose proof (pending_length b Hok) as Hlen.
  simpl. destruct (Z.eq_dec (avail b) 0) as [Hz|Hz].
  - assert (ridx b = widx b) as He by (by apply avail_zero; [apply Hok|]).
    rewrite (proxy_read_eof dev y d) by (fold b; congruence).
    simpl. exists dev. fold b.
    assert (pending b = []) as -> by (apply nil_length_inv; lia).
    repeat split; try done. congruence.
  - assert (ridx b <> widx b) as Hne
      by (rewrite <- (avail_zero b (proj1 Hok)); lia).
    rewrite (proxy_read_pass dev y d) by (fold b; congruence).
    rewrite read_copy_spec by (exact Hok || lia). fold b.
    set (x := Z.min count (avail b)).
    assert (1 <= x <= avail b) as Hx by (unfold x; lia).
    destruct (Z.leb_spec x 0); [lia|].
    set (b1 := set_ridx b ((ridx b + x) mod buffersize)).
    assert (cirbuf_ok b1) as Hok1.
    { split; [split; [apply Hok|simpl; apply Z.mod_pos_bound; lia]
             |apply Hok]. }
    assert (pending b1 = drop (Z.to_nat x) (pending b)) as Hp1
      by (apply pending_set_ridx; [done|lia]).
    destruct (IH (set_cirbuf dev d b1)) as (dev2 & Hrd & Hss & Hrc & Hcw2).
    { by rewrite (inbound_same_sides dev) by apply same_sides_set_cirbuf. }
    { by rewrite get_set_cirbuf. }
    { by rewrite get_set_cirbuf. }
    { done. }
    { rewrite get_set_cirbuf, Hp1, length_drop. lia. }
    rewrite get_set_cirbuf in Hrd. rewrite Hrd.
    exists dev2. rewrite Hp1, take_drop.
    repeat split; try done.
    all: apply (same_sides_trans dev (set_cirbuf dev d b1) dev2);
      [apply same_sides_set_cirbuf|done].
Qed.

(** *** The zero-length write *)

(** C7, as amended: a write of length 0 that gets past the wait (the
    other side is connected and the buffer is not full), whether it
    passes at once or is let through by a wake-up after it has slept,
    returns 0 and sets the close marker of its buffer to the write
    cursor, with the sides and the open count as they were; the reads
    that the reader of that buffer makes afterwards, [count] bytes at a
    time, return exactly the bytes that were waiting and, once it has
    them, return 0.  No write of one byte or more and no read changes a
    close marker, whether the call runs at once or after a sleep. *)
Theorem zero_length_write_marks dev filp d :
  outbound dev filp = Some d ->
  nopen dev = 2 ->
  cirbuf_ok (get_cirbuf dev d) ->
  is_full (get_cirbuf dev d) = 0 ->
  let b := get_cirbuf dev d in
  let dev1 := set_cirbuf dev d (set_cidx b (widx b)) in
  proxy_write dev filp [] = (Ret 0, dev1)
  /\ proxy_write_wake WakeUp dev d [] = (Ret 0, dev1)
  /\ same_sides dev dev1
  /\ (forall rd count fuel,
        inbound dev rd = Some d -> 1 <= count <= INT_MAX ->
        (length (pending b) < fuel)%nat ->
        exists dev2,
          read_until_eof fuel dev1 rd count = (pending b, dev2)
          /\ forall count', proxy_read dev2 rd count' = (Ret 0, dev2, []))
  /\ (forall dev0 f buff p,
        buff <> [] ->
        cidx (get_cirbuf (snd (proxy_write dev0 f buff)) p)
        = cidx (get_cirbuf dev0 p))
  /\ (forall dev0 ev q buff p,
        buff <> [] ->
        cidx (get_cirbuf (snd (proxy_write_wake ev dev0 q buff)) p)
        = cidx (get_cirbuf dev0 p))
  /\ (forall dev0 f count p,
        cidx (get_cirbuf (snd (fst (proxy_read dev0 f count))) p)
        = cidx (get_cirbuf dev0 p))
  /\ (forall dev0 ev q count p,
        cidx (get_cirbuf (snd (fst (proxy_read_wake ev dev0 q count))) p)
        = cidx (get_cirbuf dev0 p)).
Proof.
  intros Hd Hn Hok Hfull b dev1. subst b dev1.
  set (b := get_cirbuf dev d) in *.
  set (dev1 := set_cirbuf dev d (set_cidx b (widx b))).
  assert (same_sides dev dev1) as Hss by apply same_sides_set_cirbuf.
  assert (write_copy dev d [] = (Ret 0, dev1)) as Hcopy.
  { unfold write_copy. fold b.
    pose proof (space_spec b (proj1 Hok)) as Hspec.
    pose proof (space_range b) as Hsp.
    destruct Hok as [[Hw Hr] (m & Hm & Hmlen)].
    replace (if int_sub (int_sub (ridx b) 1) (widx b) <? 0
             then int_add (int_sub (int_sub (ridx b) 1) (widx b)) buffersize
             else int_sub (int_sub (ridx b) 1) (widx b)) with (space b).
    2:{ rewrite Hspec. int_simpl.
        destruct (Z.ltb_spec (ridx b - 1 - widx b) 0); int_simpl; lia. }
    change (Z.of_nat (length (@nil byte))) with 0.
    rewrite (to_int_small 0) by lia. rewrite (Z.min_l 0 (space b)) by lia.
    int_simpl. rewrite Z.min_l by lia.
    cbn [Z.eqb Z.gtb Z.compare widx set_buf set_widx].
    rewrite Z.add_0_r. int_simpl.
    destruct (Z.gtb_spec (widx b) (buffersize - 1)); [lia|].
    int_simpl.
    rewrite Z.sub_0_r. unfold mem. rewrite Hm. simpl.
    subst dev1. do 2 f_equal.
    unfold set_cidx, set_widx, set_buf. simpl.
    by rewrite Hm, Z.sub_0_r. }
  split; [|split; [|split; [done|split; [|split; [|split; [|split]]]]]].
  - by rewrite (proxy_write_pass dev filp d).
  - unfold proxy_write_wake. fold b. rewrite Hfull.
    destruct (Z.eqb_spec (nopen dev) 2); [done|lia].
  - intros rd count fuel Hrd Hcount Hfuel.
    assert (get_cirbuf dev1 d = set_cidx b (widx b)) as Hb1
      by apply get_set_cirbuf.
    destruct (drain_to_eof rd d count fuel dev1)
      as (dev2 & Hdr & Hss2 & Hrc & _); rewrite ?Hb1; try done.
    { by rewrite (inbound_same_sides dev dev1). }
    rewrite Hb1 in Hdr. exists dev2. split; [exact Hdr|].
    intros count'. apply (proxy_read_eof dev2 rd d); [|done].
    rewrite (inbound_same_sides dev1) by done.
    by rewrite (inbound_same_sides dev dev1).
  - intros. by apply proxy_write_cidx.
  - intros dev0 ev q buff p Hb.
    destruct (proxy_write_wake_cases ev dev0 q buff) as [->|[->|(_ & ->)]];
      try done.
    destruct (write_copy_frame dev0 q buff) as (_ & Ho & _ & Hc).
    destruct (direction_cases p q) as [-> | ->]; [auto|by rewrite Ho].
  - intros. apply proxy_read_cidx.
  - intros dev0 ev q count p.
    destruct (proxy_read_wake_cases ev dev0 q count) as [->|[->|(_ & ->)]];
      try done.
    destruct (read_copy_frame dev0 q count) as (_ & Ho & _ & Hc & _).
    destruct (direction_cases p q) as [-> | ->]; [auto|by rewrite Ho].
Qed.


(** ** Further properties of the callbacks *)

(** *** Transfer length of a read *)

(** X1: a read of [count] bytes from a buffer that holds data and whose
    read cursor is not on the close marker returns
    [min count ((widx - ridx) mod C)], never more than [C - 1] and at
    least one when one is asked for; the bytes are the oldest waiting
    ones in order, the rest stays queued, [ridx] advances by the count
    modulo the buffer size and nothing else in the device changes. *)
Theorem read_transfer dev rd d count :
  inbound dev rd = Some d ->
  cirbuf_ok (get_cirbuf dev d) ->
  ridx (get_cirbuf dev d) <> cidx (get_cirbuf dev d) ->
  ridx (get_cirbuf dev d) <> widx (get_cirbuf dev d) ->
  0 <= count <= INT_MAX ->
  let b := get_cirbuf dev d in
  let xfer := Z.min count ((widx b - ridx b) mod buffersize) in
  let b' := set_ridx b ((ridx b + xfer) mod buffersize) in
  proxy_read dev rd count
  = (Ret xfer, set_cirbuf dev d b', take (Z.to_nat xfer) (pending b))
  /\ Z.of_nat (length (take (Z.to_nat xfer) (pending b))) = xfer
  /\ xfer <= buffersize - 1
  /\ (1 <= count -> 1 <= xfer)
  /\ pending b' = drop (Z.to_nat xfer) (pending b)
  /\ cirbuf_ok b'.
Proof.
  intros Hd Hok Hc Hne Hcount b xfer b'. subst b' xfer b.
  fold (avail (get_cirbuf dev d)).
  set (b := get_cirbuf dev d) in *.
  pose proof (avail_range b) as Hav.
  pose proof (pending_length b Hok) as Hlen.
  assert (avail b <> 0) as Hnz by (rewrite (avail_zero b (proj1 Hok)); done).
  split.
  { rewrite (proxy_read_pass dev rd d) by done.
    by rewrite read_copy_spec. }
  split; [rewrite length_take; lia|].
  split; [lia|]. split; [lia|].
  split; [apply pending_set_ridx; [done|lia]|].
  split; [split; [apply Hok|simpl; apply Z.mod_pos_bound; lia]|apply Hok].
Qed.

(** *** What a transfer leaves alone *)




(** *** Invariants of a connected device *)

Lemma sides_ok_same_sides dev dev' :
  same_sides dev dev' -> sides_ok dev -> sides_ok dev'.
Proof using Type.
  clear buffersize_range.
  intros (Hn & He & Hw & _) [Hs1 Hs2]. unfold sides_ok.
  by rewrite Hn, He, Hw.
Qed.

Lemma dev_ok_update dev dev' p :
  dev_ok dev -> same_sides dev dev' ->
  get_cirbuf dev' (other p) = get_cirbuf dev (other p) ->
  cirbuf_ok (get_cirbuf dev' p) ->
  dev_ok dev'.
Proof using Type.
  clear buffersize_range.
  intros (Hew & Hwe & Hs) Hss Ho Hp.
  unfold dev_ok. destruct p; simpl in *; rewrite ?Ho;
    repeat split; try done; try apply Hp;
    try apply Hew; try apply Hwe;
    by apply (sides_ok_same_sides dev).
Qed.

Lemma dev_ok_get dev p : dev_ok dev -> cirbuf_ok (get_cirbuf dev p).
Proof using Type.
  clear buffersize_range. intros (Hew & Hwe & _). by destruct p.
Qed.

Lemma write_copy_dev_ok dev p buff :
  dev_ok dev -> Z.of_nat (length buff) <= INT_MAX ->
  dev_ok (snd (write_copy dev p buff)).
Proof.
  intros Hok Hlen.
  destruct (write_copy_frame dev p buff) as (Hss & Ho & _).
  apply (dev_ok_update dev _ p); try done.
  destruct (write_copy_spec dev p buff (dev_ok_get dev p Hok) Hlen)
    as (b' & -> & Hb' & _).
  simpl. by rewrite get_set_cirbuf.
Qed.

Lemma read_copy_dev_ok dev p count :
  dev_ok dev -> 0 <= count <= INT_MAX ->
  dev_ok (snd (fst (read_copy dev p count))).
Proof.
  intros Hok Hcount.
  destruct (read_copy_frame dev p count) as (Hss & Ho & _).
  apply (dev_ok_update dev _ p); try done.
  pose proof (dev_ok_get dev p Hok) as Hb.
  rewrite read_copy_spec by done. simpl. rewrite get_set_cirbuf.
  split; [split; [apply Hb|simpl; apply Z.mod_pos_bound; lia]|apply Hb].
Qed.

Lemma release_dev_ok dev filp :
  dev_ok dev -> f_addr filp <> 0 ->
  f_addr filp = east dev \/ f_addr filp = west dev ->
  dev_ok (snd (proxy_release dev filp)).
Proof.
  intros (Hew & Hwe & Hs) Hf Hside.
  pose proof (sides_ok_bounds dev Hs) as Hb.
  destruct Hs as [Hn Hne].
  unfold proxy_release, dev_ok, sides_ok.
  cbn [east west set_nopen nopen].
  assert (int_sub (nopen dev) 1 = nopen dev - 1) as -> by (int_simpl; done).
  destruct (Z.eqb_spec (east dev) (f_addr filp)) as [He|He];
    [|destruct (Z.eqb_spec (west dev) (f_addr filp)) as [Hw|Hw]];
    simpl; rewrite Hn.
  - destruct (Z.eqb_spec (east dev) 0); [lia|].
    repeat split; try apply Hew; try apply Hwe; try done; lia.
  - destruct (Z.eqb_spec (west dev) 0); [lia|].
    repeat split; try apply Hew; try apply Hwe; try done; lia.
  - destruct Hside; congruence.
Qed.

Lemma call_dev_ok dev c :
  dev_ok dev -> call_ok dev c -> call_sized c -> dev_ok (run_call dev c).
Proof.
  intros Hok Hc Hs.
  destruct c as [f n|ev p n|f buff|ev p buff|f|f]; simpl in *; try done.
  - destruct (proxy_read_cases dev f n)
      as [->|[->|[->|(d & _ & _ & ->)]]]; try done.
    by apply read_copy_dev_ok.
  - destruct (proxy_read_wake_cases ev dev p n) as [->|[->|(_ & ->)]];
      try done.
    by apply read_copy_dev_ok.
  - destruct (proxy_write_cases dev f buff)
      as [->|[->|[->|(d & _ & _ & ->)]]]; try done.
    by apply write_copy_dev_ok.
  - destruct (proxy_write_wake_cases ev dev p buff) as [->|[->|(_ & ->)]];
      try done.
    by apply write_copy_dev_ok.
  - destruct Hc as [Hf Hside]. by apply release_dev_ok.
Qed.

(** X3: on a device with both buffers allocated, the cursors inside them
    and the open count equal to the number of occupied sides, every run
    of reads, writes, polls, disconnects and wake-ups of sleeping readers
    and writers keeps all of that: no cursor leaves the buffer, no buffer
    is freed or resized, and the open count keeps matching the sides. *)
Theorem calls_keep_dev_ok cs : forall dev,
  dev_ok dev -> calls_ok dev cs -> Forall call_sized cs ->
  dev_ok (run_calls dev cs).
Proof.
  induction cs as [|c cs IH]; intros dev Hok Hcs Hsz; [done|].
  destruct Hcs as [Hc Hcs]. apply Forall_cons in Hsz as [Hs Hsz].
  simpl. apply IH; try done. by apply call_dev_ok.
Qed.

(** *** Bytes come out in the order they went in *)

Lemma write_step dev wr d buff :
  outbound dev wr = Some d ->
  cirbuf_ok (get_cirbuf dev d) ->
  Z.of_nat (length buff) <= INT_MAX ->
  pending (get_cirbuf (snd (proxy_write dev wr buff)) d)
  = pending (get_cirbuf dev d) ++ accepted (fst (proxy_write dev wr buff)) buff
  /\ cirbuf_ok (get_cirbuf (snd (proxy_write dev wr buff)) d)
  /\ same_sides dev (snd (proxy_write dev wr buff)).
Proof.
  intros Hd Hok Hlen.
  destruct (proxy_write_cases dev wr buff)
    as [->|[->|[->|(d' & Hd' & _ & ->)]]];
    try (simpl; rewrite app_nil_r; split; [done|split; [done|]];
         apply same_sides_refl).
  assert (d' = d) as -> by congruence.
  destruct (write_copy_spec dev d buff Hok Hlen)
    as (b' & Hw & Hok' & _ & _ & _ & Hp).
  rewrite Hw. simpl. rewrite get_set_cirbuf.
  split; [done|]. split; [done|]. apply same_sides_set_cirbuf.
Qed.

Lemma read_step dev rd d count :
  inbound dev rd = Some d ->
  cirbuf_ok (get_cirbuf dev d) ->
  0 <= count <= INT_MAX ->
  snd (proxy_read dev rd count)
  ++ pending (get_cirbuf (snd (fst (proxy_read dev rd count))) d)
  = pending (get_cirbuf dev d)
  /\ cirbuf_ok (get_cirbuf (snd (fst (proxy_read dev rd count))) d)
  /\ same_sides dev (snd (fst (proxy_read dev rd count))).
Proof.
  intros Hd Hok Hcount.
  destruct (proxy_read_cases dev rd count)
    as [->|[->|[->|(d' & Hd' & _ & ->)]]];
    try (simpl; split; [done|split; [done|]]; apply same_sides_refl).
  assert (d' = d) as -> by congruence.
  rewrite read_copy_spec by done. simpl. rewrite get_set_cirbuf.
  set (b := get_cirbuf dev d) in *.
  pose proof (avail_range b) as Hav.
  rewrite pending_set_ridx by (done || lia). rewrite take_drop.
  split; [done|].
  split; [|apply same_sides_set_cirbuf].
  split; [split; [apply Hok|simpl; apply Z.mod_pos_bound; lia]|apply Hok].
Qed.

Lemma write_wake_step ev dev d buff :
  cirbuf_ok (get_cirbuf dev d) ->
  Z.of_nat (length buff) <= INT_MAX ->
  pending (get_cirbuf (snd (proxy_write_wake ev dev d buff)) d)
  = pending (get_cirbuf dev d)
    ++ accepted (fst (proxy_write_wake ev dev d buff)) buff
  /\ cirbuf_ok (get_cirbuf (snd (proxy_write_wake ev dev d buff)) d)
  /\ same_sides dev (snd (proxy_write_wake ev dev d buff)).
Proof.
  intros Hok Hlen.
  destruct (proxy_write_wake_cases ev dev d buff) as [->|[->|(_ & ->)]];
    try (simpl; rewrite app_nil_r; split; [done|split; [done|]];
         apply same_sides_refl).
  destruct (write_copy_spec dev d buff Hok Hlen)
    as (b' & Hw & Hok' & _ & _ & _ & Hp).
  rewrite Hw. simpl. rewrite get_set_cirbuf.
  split; [done|]. split; [done|]. apply same_sides_set_cirbuf.
Qed.

Lemma read_wake_step ev dev d count :
  cirbuf_ok (get_cirbuf dev d) ->
  0 <= count <= INT_MAX ->
  snd (proxy_read_wake ev dev d count)
  ++ pending (get_cirbuf (snd (fst (proxy_read_wake ev dev d count))) d)
  = pending (get_cirbuf dev d)
  /\ cirbuf_ok (get_cirbuf (snd (fst (proxy_read_wake ev dev d count))) d)
  /\ same_sides dev (snd (fst (proxy_read_wake ev dev d count))).
Proof.
  intros Hok Hcount.
  destruct (proxy_read_wake_cases ev dev d count) as [->|[->|(_ & ->)]];
    try (simpl; split; [done|split; [done|]]; apply same_sides_refl).
  rewrite read_copy_spec by done. simpl. rewrite get_set_cirbuf.
  set (b := get_cirbuf dev d) in *.
  pose proof (avail_range b) as Hav.
  rewrite pending_set_ridx by (done || lia). rewrite take_drop.
  split; [done|].
  split; [|apply same_sides_set_cirbuf].
  split; [split; [apply Hok|simpl; apply Z.mod_pos_bound; lia]|apply Hok].
Qed.

(** The law of [fifo_order] below, for any calls the two endpoints may be
    asleep in at the start, as long as they wait on the buffer [d]. *)
Lemma run_io_fifo wr rd d ios : forall dev ws rs,
  outbound dev wr = Some d ->
  inbound dev rd = Some d ->
  cirbuf_ok (get_cirbuf dev d) ->
  (forall p buff, ws = Some (p, buff) ->
                  p = d /\ Z.of_nat (length buff) <= INT_MAX) ->
  (forall p count, rs = Some (p, count) -> p = d /\ 0 <= count <= INT_MAX) ->
  Forall io_sized ios ->
  snd (fst (run_io dev wr rd ws rs ios))
  ++ pending (get_cirbuf (snd (run_io dev wr rd ws rs ios)) d)
  = pending (get_cirbuf dev d) ++ fst (fst (run_io dev wr rd ws rs ios))
  /\ cirbuf_ok (get_cirbuf (snd (run_io dev wr rd ws rs ios)) d).
Proof.
  induction ios as [|a ios IH]; intros dev ws rs Hwr Hrd Hok Hws Hrs Hsz.
  - simpl. by rewrite app_nil_r.
  - apply Forall_cons in Hsz as [Ha Hsz].
    destruct a as [buff|count|ev|ev]; cbn [run_io io_sized] in Ha |- *.
    + destruct ws as [[p b0]|]; [by apply IH|].
      destruct (write_step dev wr d buff Hwr Hok Ha) as (Hp & Hok1 & Hss).
      destruct (proxy_write dev wr buff) as [o dev1] eqn:Hw.
      cbn [fst snd] in Hp, Hok1, Hss. rewrite Hwr.
      set (ws1 := match o with Sleeps => Some (d, buff) | Ret _ => None end).
      destruct (IH dev1 ws1 rs) as [Hfifo Hok2]; try done.
      { by rewrite (outbound_same_sides dev). }
      { by rewrite (inbound_same_sides dev). }
      { intros p b. unfold ws1. destruct o; [done|]. by intros [= <- <-]. }
      destruct (run_io dev1 wr rd ws1 rs ios) as [[w r] dev2].
      cbn [fst snd] in *.
      split; [|done]. by rewrite Hfifo, Hp, app_assoc.
    + destruct rs as [[p c0]|]; [by apply IH|].
      destruct (read_step dev rd d count Hrd Hok Ha) as (Hp & Hok1 & Hss).
      destruct (proxy_read dev rd count) as [[o dev1] out] eqn:Hr.
      cbn [fst snd] in Hp, Hok1, Hss. rewrite Hrd.
      set (rs1 := match o with Sleeps => Some (d, count) | Ret _ => None end).
      destruct (IH dev1 ws rs1) as [Hfifo Hok2]; try done.
      { by rewrite (outbound_same_sides dev). }
      { by rewrite (inbound_same_sides dev). }
      { intros p c. unfold rs1. destruct o; [done|]. by intros [= <- <-]. }
      destruct (run_io dev1 wr rd ws rs1 ios) as [[w r] dev2].
      cbn [fst snd] in *.
      split; [|done]. by rewrite <- app_assoc, Hfifo, app_assoc, Hp.
    + destruct ws as [[p buff]|]; [|by apply IH].
      destruct (Hws p buff eq_refl) as [-> Hlen].
      destruct (write_wake_step ev dev d buff Hok Hlen) as (Hp & Hok1 & Hss).
      destruct (proxy_write_wake ev dev d buff) as [o dev1] eqn:Hw.
      cbn [fst snd] in Hp, Hok1, Hss.
      set (ws1 := match o with Sleeps => Some (d, buff) | Ret _ => None end).
      destruct (IH dev1 ws1 rs) as [Hfifo Hok2]; try done.
      { by rewrite (outbound_same_sides dev). }
      { by rewrite (inbound_same_sides dev). }
      { intros p b. unfold ws1. destruct o; [done|]. by intros [= <- <-]. }
      destruct (run_io dev1 wr rd ws1 rs ios) as [[w r] dev2].
      cbn [fst snd] in *.
      split; [|done]. by rewrite Hfifo, Hp, app_assoc.
    + destruct rs as [[p count]|]; [|by apply IH].
      destruct (Hrs p count eq_refl) as [-> Hc].
      destruct (read_wake_step ev dev d count Hok Hc) as (Hp & Hok1 & Hss).
      destruct (proxy_read_wake ev dev d count) as [[o dev1] out] eqn:Hr.
      cbn [fst snd] in Hp, Hok1, Hss.
      set (rs1 := match o with Sleeps => Some (d, count) | Ret _ => None end).
      destruct (IH dev1 ws rs1) as [Hfifo Hok2]; try done.
      { by rewrite (outbound_same_sides dev). }
      { by rewrite (inbound_same_sides dev). }
      { intros p c. unfold rs1. destruct o; [done|]. by intros [= <- <-]. }
      destruct (run_io dev1 wr rd ws rs1 ios) as [[w r] dev2].
      cbn [fst snd] in *.
      split; [|done]. by rewrite <- app_assoc, Hfifo, app_assoc, Hp.
Qed.

(** X4: however the steps of the endpoint that writes to a buffer and of
    the endpoint that reads from it are interleaved (new calls, calls
    that sleep in their wait, and sleeping calls resumed by a wake-up or
    ended by a signal), and whether a write is taken in full, in part or
    not at all, the bytes handed to the reader followed by the bytes
    still waiting are the bytes that were waiting at the start followed
    by the bytes taken from the writer: nothing is lost, duplicated or
    reordered. *)
Theorem fifo_order ios dev wr rd d :
  outbound dev wr = Some d ->
  inbound dev rd = Some d ->
  cirbuf_ok (get_cirbuf dev d) ->
  Forall io_sized ios ->
  snd (fst (run_io dev wr rd None None ios))
  ++ pending (get_cirbuf (snd (run_io dev wr rd None None ios)) d)
  = pending (get_cirbuf dev d) ++ fst (fst (run_io dev wr rd None None ios))
  /\ cirbuf_ok (get_cirbuf (snd (run_io dev wr rd None None ios)) d).
Proof.
  intros Hwr Hrd Hok Hsz.
  apply run_io_fifo; try done.
Qed.

(** *** Readiness and transfers *)




(** *** Open and the invariants *)

Lemma pending_empty b :
  cirbuf_ok b -> ridx b = widx b -> pending b = [].
Proof.
  intros Hok He. apply nil_length_inv.
  pose proof (pending_length b Hok).
  assert (avail b = 0) by (by apply avail_zero; [apply Hok|]). lia.
Qed.

Lemma proxy_open_ok mem_ew mem_we dev filp dev' :
  sides_ok dev ->
  cursors_ok (ewbuf dev) -> cursors_ok (webuf dev) ->
  (forall m, buf (ewbuf dev) = Some m \/ mem_ew = Some m ->
             Z.of_nat (length m) = buffersize) ->
  (forall m, buf (webuf dev) = Some m \/ mem_we = Some m ->
             Z.of_nat (length m) = buffersize) ->
  f_addr filp <> 0 -> f_addr filp <> east dev -> f_addr filp <> west dev ->
  proxy_open mem_ew mem_we dev filp = (0, dev') ->
  dev_ok dev'
  /\ inbound dev' filp = Some (if east dev =? 0 then WE else EW)
  /\ pending (get_cirbuf dev' (if east dev =? 0 then WE else EW)) = []
  /\ (storage_ok (get_cirbuf dev (if east dev =? 0 then EW else WE)) ->
      pending (get_cirbuf dev' (if east dev =? 0 then EW else WE))
      = pending (get_cirbuf dev (if east dev =? 0 then EW else WE))).
Proof.
  intros Hs Hcew Hcwe Hlew Hlwe Hf Hfe Hfw Hopen.
  pose proof (sides_ok_bounds dev Hs) as Hb.
  destruct Hs as [Hn Hne].
  unfold proxy_open in Hopen.
  destruct (Z.leb_spec 2 (nopen dev)); [done|].
  cbn [buf ewbuf webuf set_nopen set_ewbuf set_webuf set_buf east west nopen]
    in Hopen.
  assert (int_add (nopen dev) 1 = nopen dev + 1) as Hadd by (int_simpl; done).
  rewrite Hadd in Hopen.
  set (ew := match buf (ewbuf dev) with Some m => Some m | None => mem_ew end)
    in *.
  set (we := match buf (webuf dev) with Some m => Some m | None => mem_we end)
    in *.
  destruct ew as [m1|] eqn:Hew; [|done].
  destruct we as [m2|] eqn:Hwe; [|done].
  assert (Z.of_nat (length m1) = buffersize) as Hm1.
  { apply Hlew. subst ew. destruct (buf (ewbuf dev)); [left|right]; done. }
  assert (Z.of_nat (length m2) = buffersize) as Hm2.
  { apply Hlwe. subst we. destruct (buf (webuf dev)); [left|right]; done. }
  destruct (Z.eqb_spec (east dev) 0) as [He|He].
  - injection Hopen as <-.
    match goal with |- dev_ok ?t /\ _ => assert (dev_ok t) as Hok end.
    { unfold dev_ok, cirbuf_ok, cursors_ok, storage_ok, sides_ok. simpl.
      destruct Hcew, Hcwe.
      destruct (Z.eqb_spec (f_addr filp) 0); [done|].
      destruct (Z.eqb_spec (west dev) 0);
        repeat split; try lia; eauto; congruence. }
    split; [exact Hok|]. split.
    { unfold inbound. simpl. by rewrite Z.eqb_refl. }
    split.
    { apply pending_empty; [apply Hok|done]. }
    intros (m & Hm & _). simpl in Hm |- *. unfold pending, mem, avail. simpl.
    subst ew. rewrite Hm in Hew |- *. by injection Hew as <-.
  - destruct (Z.eqb_spec (west dev) 0) as [Hw|Hw]; [|lia].
    injection Hopen as <-.
    match goal with |- dev_ok ?t /\ _ => assert (dev_ok t) as Hok end.
    { unfold dev_ok, cirbuf_ok, cursors_ok, storage_ok, sides_ok. simpl.
      destruct Hcew, Hcwe.
      destruct (Z.eqb_spec (f_addr filp) 0); [done|].
      destruct (Z.eqb_spec (east dev) 0); [done|].
      repeat split; try lia; eauto; congruence. }
    split; [exact Hok|]. split.
    { unfold inbound. simpl.
      destruct (Z.eqb_spec (f_addr filp) (east dev)); [done|].
      by rewrite Z.eqb_refl. }
    split.
    { apply pending_empty; [apply Hok|done]. }
    intros (m & Hm & _). simpl in Hm |- *. unfold pending, mem, avail. simpl.
    subst we. rewrite Hm in Hwe |- *. by injection Hwe as <-.
Qed.

(** X6: an open that succeeds on a device whose cursors are inside the
    buffers, whose open count matches the sides and whose buffers, where
    allocated, have [buffersize] bytes, made with a file that is not yet
    on a side and with blocks of [buffersize] bytes from [kmalloc], leaves
    a device with both buffers allocated, the cursors inside them and the
    open count matching the sides.  The buffer the new endpoint reads
    from is empty for it, and the bytes waiting in an allocated buffer it
    writes to are kept. *)
Theorem open_keeps_dev_ok mem_ew mem_we dev filp dev' :
  sides_ok dev ->
  cursors_ok (ewbuf dev) -> cursors_ok (webuf dev) ->
  (forall m, buf (ewbuf dev) = Some m \/ mem_ew = Some m ->
             Z.of_nat (length m) = buffersize) ->
  (forall m, buf (webuf dev) = Some m \/ mem_we = Some m ->
             Z.of_nat (length m) = buffersize) ->
  f_addr filp <> 0 -> f_addr filp <> east dev -> f_addr filp <> west dev ->
  proxy_open mem_ew mem_we dev filp = (0, dev') ->
  dev_ok dev'
  /\ inbound dev' filp = Some (if east dev =? 0 then WE else EW)
  /\ pending (get_cirbuf dev' (if east dev =? 0 then WE else EW)) = []
  /\ (storage_ok (get_cirbuf dev (if east dev =? 0 then EW else WE)) ->
      pending (get_cirbuf dev' (if east dev =? 0 then EW else WE))
      = pending (get_cirbuf dev (if east dev =? 0 then EW else WE))).
Proof. apply proxy_open_ok. Qed.

(** *** A reader asleep when the end of file is marked *)

Lemma zero_length_write_state dev filp d :
  outbound dev filp = Some d -> nopen dev = 2 ->
  cirbuf_ok (get_cirbuf dev d) -> is_full (get_cirbuf dev d) = 0 ->
  exists b',
    proxy_write dev filp [] = (Ret 0, set_cirbuf dev d b')
    /\ ridx b' = ridx (get_cirbuf dev d)
    /\ widx b' = widx (get_cirbuf dev d)
    /\ cidx b' = widx (get_cirbuf dev d).
Proof.
  intros Hd Hn Hok Hfull.
  rewrite (proxy_write_pass dev filp d) by done.
  destruct (write_copy_spec dev d [] Hok ltac:(simpl; unfold INT_MAX; lia))
    as (b' & Hw & _ & Hr & Hwi & Hc & _).
  pose proof (space_range (get_cirbuf dev d)).
  simpl in Hw, Hwi, Hc. rewrite Z.min_l in Hw, Hwi by lia.
  rewrite Z.add_0_r, Z.mod_small in Hwi by apply Hok.
  by exists b'.
Qed.

(** X7: the end of file reaches reads that are made after it, not a
    reader that is already asleep.  When the reader has taken every byte
    ([ridx = widx]) and the writer then disconnects, or makes a
    zero-length write, a read made afterwards returns 0, but a reader
    that went to sleep before stays asleep when its queue is woken, since
    the predicate it waits for is [ridx != widx] alone. *)
Theorem sleeping_reader_misses_eof dev x y d :
  sides_ok dev -> f_addr x <> 0 -> f_addr y <> 0 ->
  outbound dev x = Some d -> inbound dev y = Some d ->
  cirbuf_ok (get_cirbuf dev d) ->
  ridx (get_cirbuf dev d) = widx (get_cirbuf dev d) ->
  (exists dev1,
     proxy_release dev x = (0, dev1)
     /\ (forall count, proxy_read dev1 y count = (Ret 0, dev1, []))
     /\ (forall count,
           proxy_read_wake WakeUp dev1 d count = (Sleeps, dev1, [])))
  /\ (nopen dev = 2 ->
      exists dev2,
        proxy_write dev x [] = (Ret 0, dev2)
        /\ (forall count, proxy_read dev2 y count = (Ret 0, dev2, []))
        /\ (forall count,
              proxy_read_wake WakeUp dev2 d count = (Sleeps, dev2, []))).
Proof.
  intros Hs Hx Hy Hout Hin Hok He. split.
  - destruct (release_writer dev x d Hs Hx Hout)
      as (dev1 & Hrel & Hb1 & _).
    pose proof (release_writer_reader dev x y d dev1 Hy Hout Hin Hrel) as Hin1.
    exists dev1. split; [done|]. split; intros count.
    + apply (proxy_read_eof dev1 y d); [done|]. rewrite Hb1. simpl. done.
    + unfold proxy_read_wake. rewrite Hb1. simpl.
      by rewrite He, Z.eqb_refl.
  - intros Hn.
    assert (is_full (get_cirbuf dev d) = 0) as Hfull.
    { rewrite is_full_space, space_avail by apply Hok.
      assert (avail (get_cirbuf dev d) = 0) as ->
        by (by apply avail_zero; [apply Hok|]).
      destruct (Z.eqb_spec (buffersize - 1 - 0) 0); [lia|done]. }
    destruct (zero_length_write_state dev x d Hout Hn Hok Hfull)
      as (b' & Hw & Hr & Hwi & Hc).
    eexists. split; [exact Hw|]. split; intros count.
    + apply (proxy_read_eof _ y d).
      * by rewrite (inbound_same_sides dev) by apply same_sides_set_cirbuf.
      * rewrite get_set_cirbuf. congruence.
    + unfold proxy_read_wake. rewrite get_set_cirbuf.
      replace (ridx b') with (widx b') by congruence.
      by rewrite Z.eqb_refl.
Qed.

(** *** Writes and the other side *)

Lemma proxy_open_succeeds mem_ew mem_we dev filp :
  sides_ok dev -> east dev = 0 \/ west dev = 0 ->
  is_Some (buf (ewbuf dev)) \/ is_Some mem_ew ->
  is_Some (buf (webuf dev)) \/ is_Some mem_we ->
  exists dev',
    proxy_open mem_ew mem_we dev filp = (0, dev')
    /\ nopen dev' = nopen dev + 1
    /\ (if east dev =? 0
        then east dev' = f_addr filp /\ west dev' = west dev
        else west dev' = f_addr filp /\ east dev' = east dev).
Proof using Type.
  clear buffersize_range.
  intros Hs Hfree Hew Hwe.
  pose proof (sides_ok_bounds dev Hs) as Hb. destruct Hs as [Hn Hne].
  assert (nopen dev <= 1) as Hle.
  { rewrite Hn.
    destruct (Z.eqb_spec (east dev) 0); destruct (Z.eqb_spec (west dev) 0);
      lia. }
  unfold proxy_open.
  destruct (Z.leb_spec 2 (nopen dev)); [lia|].
  cbn [buf ewbuf webuf set_nopen set_ewbuf set_webuf set_buf east west].
  assert (int_add (nopen dev) 1 = nopen dev + 1) as ->
    by (unfold int_add; rewrite to_int_small; lia).
  destruct (buf (ewbuf dev)) as [m1|];
    [|destruct mem_ew as [m1|];
      [|destruct Hew as [[? ?]|[? ?]]; done]];
    (destruct (buf (webuf dev)) as [m2|];
     [|destruct mem_we as [m2|];
       [|destruct Hwe as [[? ?]|[? ?]]; done]]);
    (destruct (Z.eqb_spec (east dev) 0);
     [|destruct (Z.eqb_spec (west dev) 0); [|lia]]);
    eexists; (split; [reflexivity|]); simpl; done.
Qed.

Lemma proxy_open_allocated mem_ew mem_we dev filp :
  is_Some (buf (ewbuf dev)) -> is_Some (buf (webuf dev)) ->
  proxy_open mem_ew mem_we dev filp = proxy_open None None dev filp.
Proof using Type.
  clear buffersize_range.
  intros [m1 H1] [m2 H2]. unfold proxy_open. simpl. by rewrite H1, H2.
Qed.

Lemma lone_sides dev filp d :
  sides_ok dev -> f_addr filp <> 0 ->
  outbound dev filp = Some d -> peer dev filp = 0 ->
  writer_of dev d = f_addr filp /\ writer_of dev (other d) = 0
  /\ nopen dev = 1 /\ (if east dev =? 0 then WE else EW) = d.
Proof using Type.
  clear buffersize_range.
  intros [Hn Hne] Hf. unfold outbound, peer.
  destruct (Z.eqb_spec (f_addr filp) (east dev)) as [He|He];
    [|destruct (Z.eqb_spec (f_addr filp) (west dev)) as [Hw|Hw]];
    intros [= <-] Hp; simpl; rewrite Hn, Hp; simpl.
  - destruct (Z.eqb_spec (east dev) 0); [lia|]. done.
  - destruct (Z.eqb_spec (west dev) 0); [lia|]. done.
Qed.

Lemma outbound_of_writer dev filp d :
  writer_of dev d = f_addr filp ->
  writer_of dev (other d) <> f_addr filp ->
  outbound dev filp = Some d.
Proof using Type.
  clear buffersize_range.
  unfold outbound. destruct d; simpl; intros H1 H2.
  - by rewrite H1, Z.eqb_refl.
  - destruct (Z.eqb_spec (f_addr filp) (east dev)); [done|].
    by rewrite H1, Z.eqb_refl.
Qed.

Lemma one_side_free_nopen dev d :
  sides_ok dev -> writer_of dev d = 0 -> nopen dev <> 2.
Proof using Type.
  clear buffersize_range.
  intros [Hn _] Hw. rewrite Hn.
  destruct d; simpl in Hw; rewrite Hw; simpl;
    destruct (Z.eqb_spec (east dev) 0); destruct (Z.eqb_spec (west dev) 0);
    lia.
Qed.

(** X8: writes go through exactly while the other side is connected.  On
    a device with one endpoint, a write of one byte or more sleeps (or
    returns -EWOULDBLOCK in non-blocking mode) although the buffer has
    room, and a wake-up leaves it asleep; once a second file opens the
    device, the sleeping writer is let through and transfers
    [min n (C - 1)] bytes into a buffer that is empty for the newcomer;
    once that file has disconnected again, writes are held back as
    before. *)
Theorem writes_wait_for_peer mem_ew mem_we dev filp y d buff :
  dev_ok dev -> f_addr filp <> 0 ->
  outbound dev filp = Some d -> peer dev filp = 0 ->
  f_addr y <> 0 -> f_addr y <> f_addr filp ->
  1 <= Z.of_nat (length buff) <= INT_MAX ->
  proxy_write dev filp buff
  = (if Z.land (f_flags filp) O_NONBLOCK =? 0
     then Sleeps else Ret (- EWOULDBLOCK), dev)
  /\ proxy_write_wake WakeUp dev d buff = (Sleeps, dev)
  /\ exists dev1 dev2 dev3,
       proxy_open mem_ew mem_we dev y = (0, dev1)
       /\ proxy_write_wake WakeUp dev1 d buff
          = (Ret (Z.min (Z.of_nat (length buff)) (buffersize - 1)), dev2)
       /\ pending (get_cirbuf dev2 d)
          = take (Z.to_nat (Z.min (Z.of_nat (length buff)) (buffersize - 1)))
                 buff
       /\ proxy_release dev1 y = (0, dev3)
       /\ proxy_write dev3 filp buff
          = (if Z.land (f_flags filp) O_NONBLOCK =? 0
             then Sleeps else Ret (- EWOULDBLOCK), dev3).
Proof.
  intros Hok Hf Hout Hpeer Hy Hyf Hlen.
  pose proof Hok as (Hew & Hwe & Hs).
  destruct (lone_sides dev filp d Hs Hf Hout Hpeer) as (Hwr & Hoth & Hn & Hdin).
  split; [apply (proxy_write_wait dev filp d); [done|left; lia]|].
  split.
  { unfold proxy_write_wake.
    destruct (Z.eqb_spec (nopen dev) 2); [lia|done]. }
  assert (is_Some (buf (ewbuf dev))) as Haew
    by (destruct Hew as [_ (m & -> & _)]; eauto).
  assert (is_Some (buf (webuf dev))) as Hawe
    by (destruct Hwe as [_ (m & -> & _)]; eauto).
  assert (east dev = 0 \/ west dev = 0) as Hfree
    by (destruct d; simpl in Hoth; auto).
  assert (f_addr y <> east dev /\ f_addr y <> west dev) as [Hye Hyw]
    by (destruct d; simpl in Hwr, Hoth; split; congruence).
  destruct (proxy_open_succeeds None None dev y Hs Hfree)
    as (dev1 & Hopen & Hn1 & Hsides); [by left..|].
  destruct (proxy_open_ok None None dev y dev1 Hs) as (Hok1 & Hin1 & Hp1 & _);
    try done; try apply Hew; try apply Hwe.
  { intros m [Hm|Hm]; [|done].
    destruct Hew as [_ (m' & Hm' & Hl)]. congruence. }
  { intros m [Hm|Hm]; [|done].
    destruct Hwe as [_ (m' & Hm' & Hl)]. congruence. }
  rewrite Hdin in Hin1, Hp1.
  pose proof Hok1 as (_ & _ & Hs1).
  pose proof (dev_ok_get dev1 d Hok1) as Hb1.
  assert (writer_of dev1 d = f_addr filp /\ writer_of dev1 (other d) = f_addr y)
    as [Hwr1 Hoth1].
  { clear Hin1 Hp1 Hdin.
    destruct d; cbn [writer_of other] in *.
    - destruct (Z.eqb_spec (east dev) 0); [lia|].
      destruct Hsides as [-> ->]. done.
    - rewrite Hoth in Hsides. cbn in Hsides.
      destruct Hsides as [-> ->]. done. }
  assert (outbound dev1 filp = Some d) as Hout1
    by (apply outbound_of_writer; congruence).
  assert (outbound dev1 y = Some (other d)) as Houty.
  { apply outbound_of_writer; [done|].
    replace (other (other d)) with d by (by destruct d). congruence. }
  assert (avail (get_cirbuf dev1 d) = 0) as Hav1
    by (rewrite <- pending_length, Hp1 by done; done).
  assert (is_full (get_cirbuf dev1 d) = 0) as Hfull1.
  { rewrite is_full_space, space_avail, Hav1 by apply Hb1.
    destruct (Z.eqb_spec (buffersize - 1 - 0) 0); [lia|done]. }
  destruct (write_copy_spec dev1 d buff Hb1 ltac:(lia))
    as (b2 & Hw2 & _ & _ & _ & _ & Hp2).
  rewrite space_avail, Hav1, Z.sub_0_r in Hw2, Hp2 by apply Hb1.
  rewrite Hp1 in Hp2. simpl in Hp2.
  destruct (release_writer dev1 y (other d) Hs1 Hy Houty)
    as (dev3 & Hrel & _ & Hs3 & Hw3 & Ho3).
  replace (other (other d)) with d in Ho3 by (by destruct d).
  exists dev1, (set_cirbuf dev1 d b2), dev3.
  split; [by rewrite proxy_open_allocated|].
  split.
  { unfold proxy_write_wake. rewrite Hfull1.
    destruct (Z.eqb_spec (nopen dev1) 2); [done|lia]. }
  split; [by rewrite get_set_cirbuf|].
  split; [done|].
  apply (proxy_write_wait dev3 filp d).
  - apply outbound_of_writer; congruence.
  - left. by apply (one_side_free_nopen dev3 (other d)).
Qed.

(** *** Loading and removing the module *)

Lemma init_loop_lookup todo : forall i devs j,
  0 <= i -> i + Z.of_nat todo <= INT_MAX ->
  init_loop todo i devs !! j
  = if decide (Z.to_nat i <= j < Z.to_nat i + todo)%nat
    then init_device (Z.of_nat j) <$> devs !! j else devs !! j.
Proof using Type.
  clear buffersize_range. unfold INT_MAX.
  induction todo as [|k IH]; intros i devs j Hi Hmax; simpl.
  - case_decide; [lia|done].
  - assert (int_add i 1 = i + 1) as ->
      by (unfold int_add; rewrite to_int_small; lia).
    rewrite IH by lia.
    destruct (decide (j = Z.to_nat i)) as [-> | Hj].
    + rewrite list_lookup_alter, Z2Nat.id by lia.
      repeat case_decide; (lia || done).
    + rewrite list_lookup_alter_ne by done.
      repeat case_decide; (lia || done).
Qed.

Lemma init_loop_table n (t : list px) :
  Z.of_nat n <= 255 -> length t = n ->
  init_loop n 0 ((fun _ => px_zero) <$> t) = init_table n.
Proof using Type.
  clear buffersize_range.
  intros Hn Hlen. apply list_eq. intros j. unfold init_table.
  rewrite init_loop_lookup, !list_lookup_fmap by (unfold INT_MAX; lia).
  destruct (decide (j < n)%nat) as [Hj|Hj].
  - rewrite lookup_seq_lt by done.
    destruct (lookup_lt_is_Some_2 t j ltac:(lia)) as [x ->].
    case_decide; [|lia]. done.
  - rewrite lookup_seq_ge by lia.
    rewrite (lookup_ge_None_2 t j) by lia.
    case_decide; done.
Qed.

Lemma init_table_lookup n j :
  (j < n)%nat -> init_table n !! j = Some (px_init (Z.of_nat j)).
Proof using Type.
  clear buffersize_range.
  intros Hj. unfold init_table.
  by rewrite list_lookup_fmap, lookup_seq_lt.
Qed.

Lemma init_table_length n : length (init_table n) = n.
Proof using Type.
  clear buffersize_range.
  unfold init_table. by rewrite length_fmap, length_seq.
Qed.

Lemma exit_loop_spec todo : forall i devs,
  0 <= i -> i + Z.of_nat todo <= INT_MAX ->
  exit_loop todo i devs
  = concat (held <$> take todo (drop (Z.to_nat i) devs)).
Proof using Type.
  clear buffersize_range. unfold INT_MAX.
  induction todo as [|k IH]; intros i devs Hi Hmax; [done|].
  cbn [exit_loop].
  assert (int_add i 1 = i + 1) as ->
    by (unfold int_add; rewrite to_int_small; lia).
  rewrite IH by lia.
  replace (Z.to_nat (i + 1)) with (S (Z.to_nat i)) by lia.
  destruct (devs !! Z.to_nat i) as [d|] eqn:Hd.
  - rewrite (drop_S devs d (Z.to_nat i)) by done. done.
  - apply lookup_ge_None_1 in Hd.
    rewrite !drop_ge by lia. by destruct k.
Qed.

Lemma held_nothing l :
  Forall (fun d => held d = []) l -> concat (held <$> l) = [].
Proof using Type.
  clear buffersize_range.
  induction 1 as [|d l Hd _ IH]; [done|].
  rewrite fmap_cons. cbn [concat]. by rewrite Hd, IH.
Qed.

Lemma init_table_holds_nothing n :
  Forall (fun d => held d = []) (init_table n).
Proof using Type.
  clear buffersize_range.
  unfold init_table. apply Forall_fmap, Forall_forall. done.
Qed.

(** X9: loading the module.  When the device table is allocated,
    [proxy_init_module] leaves a table whose entry [i] is the idle device
    of minor [i] (no buffers, cursors 0, no close marker, no side taken,
    open count 0), whatever the memory held before and whether or not the
    registration succeeds afterwards; the table is kept even when the
    registration fails.  The result is 0 exactly when neither
    registration step reports an error, and is the error otherwise.  When
    the table cannot be allocated the function returns 0 as well, with no
    table and nothing registered. *)
Theorem module_init_table numberofdevs t region add_err g :
  0 <= numberofdevs <= 255 -> length t = Z.to_nat numberofdevs ->
  px_devices (snd (proxy_init_module numberofdevs (Some t) region add_err g))
  = Some (init_table (Z.to_nat numberofdevs))
  /\ (forall j, 0 <= j < numberofdevs ->
        init_table (Z.to_nat numberofdevs) !! Z.to_nat j
        = Some (mkPx j (mkCirbuf None 0 0 (-1)) (mkCirbuf None 0 0 (-1))
                     0 0 0 0 0))
  /\ (fst (proxy_init_module numberofdevs (Some t) region add_err g) = 0
      <-> 0 <= fst region /\ 0 <= add_err)
  /\ (fst region < 0 ->
      proxy_init_module numberofdevs (Some t) region add_err g
      = (fst region,
         mkModule (Some (init_table (Z.to_nat numberofdevs))) (px_major g)))
  /\ (0 <= fst region -> add_err < 0 ->
      proxy_init_module numberofdevs (Some t) region add_err g
      = (add_err,
         mkModule (Some (init_table (Z.to_nat numberofdevs))) (snd region)))
  /\ proxy_init_module numberofdevs None region add_err g
     = (0, mkModule None (px_major g)).
Proof using Type.
  clear buffersize_range.
  intros Hn Hlen. unfold proxy_init_module.
  rewrite init_loop_table by lia.
  split; [|split; [|split; [|split; [|split]]]].
  - destruct (Z.ltb_spec (fst region) 0); [done|].
    destruct (Z.ltb_spec add_err 0); done.
  - intros j Hj. rewrite init_table_lookup by lia.
    by rewrite Z2Nat.id by lia.
  - destruct (Z.ltb_spec (fst region) 0);
      [|destruct (Z.ltb_spec add_err 0)]; simpl; lia.
  - intros Hr. destruct (Z.ltb_spec (fst region) 0); [done|lia].
  - intros Hr Ha. destruct (Z.ltb_spec (fst region) 0); [lia|].
    destruct (Z.ltb_spec add_err 0); [done|lia].
  - done.
Qed.

(** X10: removing the module.  [proxy_exit_module] hands to [kfree],
    device by device and east-to-west buffer first, exactly the buffers
    the devices of the table hold, each once, and clears the table; a
    second call finds no table and frees nothing.  Straight after
    [proxy_init_module] no device holds a buffer and nothing is freed. *)
Theorem module_exit_frees numberofdevs g devs :
  0 <= numberofdevs <= 255 ->
  px_devices g = Some devs -> length devs = Z.to_nat numberofdevs ->
  proxy_exit_module numberofdevs g
  = (mkModule None (px_major g), concat (held <$> devs))
  /\ proxy_exit_module numberofdevs (fst (proxy_exit_module numberofdevs g))
     = (mkModule None (px_major g), [])
  /\ forall t region add_err,
       length t = Z.to_nat numberofdevs ->
       snd (proxy_exit_module numberofdevs
              (snd (proxy_init_module numberofdevs (Some t) region add_err g)))
       = [].
Proof using Type.
  clear buffersize_range.
  intros Hn Hg Hlen.
  assert (forall l major,
            length l = Z.to_nat numberofdevs ->
            proxy_exit_module numberofdevs (mkModule (Some l) major)
            = (mkModule None major, concat (held <$> l))) as Hexit.
  { intros l major Hl. unfold proxy_exit_module. cbn [px_devices px_major].
    rewrite exit_loop_spec by (unfold INT_MAX; lia).
    by rewrite drop_0, <- Hl, firstn_all. }
  destruct g as [tbl major]. simpl in Hg. subst tbl.
  rewrite Hexit by done. split; [done|]. split; [done|].
  intros t region add_err Ht. unfold proxy_init_module.
  rewrite init_loop_table by lia.
  cbn [px_devices px_major].
  destruct (Z.ltb_spec (fst region) 0);
    [|destruct (Z.ltb_spec add_err 0)];
    cbn [snd px_devices px_major];
    rewrite Hexit by apply init_table_length;
    apply held_nothing, init_table_holds_nothing.
Qed.

(** X11: the first open after loading.  On the table left by
    [proxy_init_module], an open of minor [i] by a file, with memory for
    both buffers, returns 0; the device of that minor has the file as its
    east side, no west side, open count 1, both buffers allocated and
    empty, and satisfies the invariant of the callbacks; every other
    minor is still idle; and removing the module then frees the two
    buffers of that open and nothing else. *)
Theorem first_open_after_init numberofdevs t region add_err g i filp m1 m2 :
  0 <= numberofdevs <= 255 -> length t = Z.to_nat numberofdevs ->
  0 <= i < numberofdevs -> f_addr filp <> 0 ->
  Z.of_nat (length m1) = buffersize -> Z.of_nat (length m2) = buffersize ->
  exists g2 devs2 dev,
    open_minor (Some m1) (Some m2)
      (snd (proxy_init_module numberofdevs (Some t) region add_err g))
      i filp
    = Some (0, g2)
    /\ px_devices g2 = Some devs2
    /\ devs2 !! Z.to_nat i = Some dev
    /\ dev = mkPx i (mkCirbuf (Some m1) 0 0 (-1)) (mkCirbuf (Some m2) 0 0 (-1))
                  1 (f_addr filp) 0 (f_flags filp) 0
    /\ dev_ok dev
    /\ pending (ewbuf dev) = [] /\ pending (webuf dev) = []
    /\ (forall j, 0 <= j < numberofdevs -> j <> i ->
          devs2 !! Z.to_nat j = Some (px_init j))
    /\ snd (proxy_exit_module numberofdevs g2) = [m1; m2].
Proof.
  intros Hn Hlen Hi Hf Hm1 Hm2.
  set (dev := mkPx i (mkCirbuf (Some m1) 0 0 (-1)) (mkCirbuf (Some m2) 0 0 (-1))
                   1 (f_addr filp) 0 (f_flags filp) 0).
  set (n := Z.to_nat numberofdevs).
  set (g1 := snd (proxy_init_module numberofdevs (Some t) region add_err g)).
  assert (px_devices g1 = Some (init_table n)) as Hg1.
  { unfold g1, proxy_init_module. rewrite init_loop_table by lia.
    destruct (Z.ltb_spec (fst region) 0);
      [|destruct (Z.ltb_spec add_err 0)]; done. }
  exists (mkModule (Some (<[Z.to_nat i := dev]> (init_table n))) (px_major g1)),
         (<[Z.to_nat i := dev]> (init_table n)), dev.
  split.
  { unfold open_minor. rewrite Hg1.
    rewrite init_table_lookup, Z2Nat.id by lia. done. }
  split; [done|].
  split.
  { apply list_lookup_insert_eq. rewrite init_table_length. lia. }
  split; [done|].
  split.
  { split; [|split].
    - split; [unfold cursors_ok; simpl; lia|]. by exists m1.
    - split; [unfold cursors_ok; simpl; lia|]. by exists m2.
    - split; simpl.
      + by destruct (Z.eqb_spec (f_addr filp) 0).
      + done. }
  split; [|split].
  { unfold pending, avail. simpl. by rewrite Z.mod_0_l by lia. }
  { unfold pending, avail. simpl. by rewrite Z.mod_0_l by lia. }
  split.
  { intros j Hj Hji.
    rewrite list_lookup_insert_ne by lia.
    rewrite init_table_lookup, Z2Nat.id by lia. done. }
  unfold proxy_exit_module. cbn [px_devices px_major snd].
  rewrite exit_loop_spec by (unfold INT_MAX; lia).
  rewrite drop_0, firstn_all2
    by (rewrite length_insert, init_table_length; lia).
  rewrite insert_take_drop by (rewrite init_table_length; lia).
  rewrite fmap_app, concat_app, fmap_cons. cbn [concat].
  rewrite !held_nothing
    by (first [apply Forall_take | apply Forall_drop];
        apply init_table_holds_nothing).
  done.
Qed.

(** X12: an open that finds no memory is still counted.  On an idle
    device (open count 0, no side taken) an open that cannot obtain a
    buffer returns -ENOMEM with the open count raised to 1 and no side
    bound, so the count no longer matches the sides.  The next open that
    finds memory succeeds as the east side with the count at 2, and from
    then on every open is refused with -EBUSY although the west side is
    free: the device takes one endpoint only. *)
Theorem failed_open_is_kept_in_count mem_ew mem_we dev filp :
  sides_ok dev -> nopen dev = 0 ->
  (buf (ewbuf dev) = None /\ mem_ew = None)
  \/ (buf (webuf dev) = None /\ mem_we = None) ->
  exists dev',
    proxy_open mem_ew mem_we dev filp = (- ENOMEM, dev')
    /\ nopen dev' = 1 /\ east dev' = 0 /\ west dev' = 0
    /\ ~ sides_ok dev'
    /\ forall m1 m2 f,
         exists dev2,
           proxy_open (Some m1) (Some m2) dev' f = (0, dev2)
           /\ east dev2 = f_addr f /\ west dev2 = 0 /\ nopen dev2 = 2
           /\ forall mem1 mem2 f',
                proxy_open mem1 mem2 dev2 f' = (- EBUSY, dev2).
Proof using Type.
  clear buffersize_range.
  intros Hs Hn0 Hmem.
  assert (east dev = 0 /\ west dev = 0) as [He Hw].
  { destruct Hs as [Hn _]. rewrite Hn0 in Hn.
    destruct (Z.eqb_spec (east dev) 0); destruct (Z.eqb_spec (west dev) 0);
      split; lia. }
  assert (forall dev', nopen dev' = 1 -> east dev' = 0 -> west dev' = 0 ->
            ~ sides_ok dev'
            /\ forall m1 m2 f,
                 exists dev2,
                   proxy_open (Some m1) (Some m2) dev' f = (0, dev2)
                   /\ east dev2 = f_addr f /\ west dev2 = 0 /\ nopen dev2 = 2
                   /\ forall mem1 mem2 f',
                        proxy_open mem1 mem2 dev2 f' = (- EBUSY, dev2))
    as Hafter.
  { intros dev' Hn' He' Hw'. split.
    - intros [Hc _]. rewrite He', Hw' in Hc. simpl in Hc. lia.
    - intros m1 m2 f. unfold proxy_open at 1.
      destruct (Z.leb_spec 2 (nopen dev')); [lia|].
      cbn [buf ewbuf webuf set_nopen set_ewbuf set_webuf set_buf east west].
      assert (int_add (nopen dev') 1 = 2) as ->
        by (rewrite Hn'; reflexivity).
      rewrite He'. cbn [Z.eqb].
      destruct (buf (ewbuf dev')); destruct (buf (webuf dev'));
        (eexists; split; [reflexivity|]);
        (split; [done|]); (split; [done|]); (split; [done|]);
        intros mem1 mem2 f'; reflexivity. }
  unfold proxy_open.
  destruct (Z.leb_spec 2 (nopen dev)); [lia|].
  cbn [buf ewbuf webuf set_nopen set_ewbuf set_webuf set_buf east west].
  assert (int_add (nopen dev) 1 = 1) as -> by (rewrite Hn0; reflexivity).
  destruct Hmem as [[Hb1 ->] | [Hb2 ->]].
  - rewrite Hb1. eexists. split; [reflexivity|].
    split; [done|]. split; [done|]. split; [done|].
    by apply Hafter.
  - destruct (match buf (ewbuf dev) with Some m => Some m | None => mem_ew end)
      eqn:Hew.
    + rewrite Hb2. eexists. split; [reflexivity|].
      split; [done|]. split; [done|]. split; [done|].
      by apply Hafter.
    + eexists. split; [reflexivity|].
      split; [done|]. split; [done|]. split; [done|].
      by apply Hafter.
Qed.

End Proxy.

(** ** The theorems at work on the sample device *)

Lemma unknown_endpoint_noop_witness :
  (forall count, proxy_read 8 dev_pair file_x count = (Ret 0, dev_pair, []))
  /\ (forall buff, proxy_write 8 dev_pair file_x buff = (Ret 0, dev_pair)).
Proof.
  apply (unknown_endpoint_noop 8 dev_pair file_x); simpl; lia.
Defined.

Lemma nonblocking_would_block_witness :
  Z.land (f_flags file_e_nb) O_NONBLOCK <> 0
  /\ (forall count,
        proxy_read 8 dev_east_only file_e_nb count
        = (Ret (- EWOULDBLOCK), dev_east_only, []))
  /\ space 8 (ewbuf dev_east_only) = 7
  /\ (forall buff,
        proxy_write 8 dev_east_only file_e_nb buff
        = (Ret (- EWOULDBLOCK), dev_east_only)).
Proof.
  assert (Z.land (f_flags file_e_nb) O_NONBLOCK <> 0) as Hnb
    by (vm_compute; lia).
  destruct (nonblocking_would_block 8 dev_east_only file_e_nb WE EW Hnb)
    as [Hr Hw].
  split; [exact Hnb|]. split; [|split; [reflexivity|]].
  - apply Hr; [reflexivity|reflexivity|simpl; lia].
  - apply Hw; [reflexivity| |simpl; lia|left; reflexivity].
    split; [reflexivity|simpl; lia].
Defined.

Lemma buffersize8 : 2 <= 8 <= 1073741824.
Proof. lia. Defined.

Lemma write_transfer_witness :
  exists b',
    proxy_write 8 dev_pair6 file_e abcde = (Ret 5, set_cirbuf dev_pair6 EW b')
    /\ widx b' = 3 /\ ridx b' = 6 /\ cidx b' = -1
    /\ pending 8 b' = abcde.
Proof.
  destruct (write_transfer 8 buffersize8 dev_pair6 file_e EW abcde)
    as (b' & Hw & _ & Hwi & Hri & Hci & Hp).
  - split; [reflexivity|simpl; lia].
  - simpl; lia.
  - reflexivity.
  - vm_compute; lia.
  - split; [split; simpl; lia|].
    exists blk8. split; reflexivity.
  - reflexivity.
  - simpl; unfold INT_MAX; lia.
  - exists b'. repeat split; assumption.
Defined.

Lemma poll_readiness_witness :
  writable (proxy_poll 8 dev_pair file_e) = true
  /\ readable (proxy_poll 8 dev_pair file_e) = false
  /\ readable (proxy_poll 8 dev_abc file_w) = true.
Proof.
  assert (sides_ok dev_pair) as Hs by (split; [reflexivity|simpl; lia]).
  assert (sides_ok dev_abc) as Hs' by (split; [reflexivity|simpl; lia]).
  assert (f_addr file_e <> 0) as He by (simpl; lia).
  assert (f_addr file_w <> 0) as Hw by (simpl; lia).
  destruct (poll_readiness 8 dev_pair file_e Hs He) as [_ Heast].
  destruct (Heast eq_refl) as [Hwr Hrd].
  destruct (poll_readiness 8 dev_abc file_w Hs' Hw) as [Hwest _].
  destruct (Hwest eq_refl) as [_ Hrd'].
  split; [|split].
  - apply Hwr. vm_compute. repeat split; discriminate.
  - destruct (readable (proxy_poll 8 dev_pair file_e)) eqn:Hr; [|reflexivity].
    destruct Hrd as [Hrd _]. destruct (Hrd eq_refl) as [[Hx|Hx] _];
      vm_compute in Hx; [elim Hx; reflexivity|discriminate Hx].
  - apply Hrd'. vm_compute. repeat split; try discriminate.
    left. discriminate.
Defined.

Lemma connect_admission_witness :
  proxy_open None None dev_pair file_x = (- EBUSY, dev_pair)
  /\ (exists dev',
        proxy_open (Some blk8) (Some blk8) (px_init 0) file_e = (0, dev')
        /\ east dev' = 100 /\ west dev' = 0 /\ nopen dev' = 1)
  /\ exists dev',
       proxy_open None None dev_east_only file_w = (0, dev')
       /\ west dev' = 200 /\ east dev' = 100 /\ nopen dev' = 2.
Proof.
  assert (sides_ok dev_pair) as Hs by (split; [reflexivity|simpl; lia]).
  assert (sides_ok (px_init 0)) as Hs0 by (split; [reflexivity|simpl; lia]).
  assert (sides_ok dev_east_only) as Hs1
    by (split; [reflexivity|simpl; lia]).
  split; [|split].
  - apply (connect_admission None None dev_pair file_x Hs).
    simpl; lia.
  - destruct (connect_admission (Some blk8) (Some blk8) (px_init 0) file_e Hs0)
      as [_ Hfree].
    destruct (Hfree (or_introl eq_refl)) as [Hok _].
    destruct Hok as (dev' & Ho & Hn & He & _); [discriminate..|].
    destruct (He eq_refl) as (He1 & He2 & _).
    exists dev'. repeat split; assumption.
  - destruct (connect_admission None None dev_east_only file_w Hs1)
      as [_ Hfree].
    destruct (Hfree (or_intror eq_refl)) as [Hok _].
    destruct Hok as (dev' & Ho & Hn & _ & Hw); [discriminate..|].
    destruct Hw as (Hw1 & Hw2 & _); [simpl; lia|].
    exists dev'. repeat split; assumption.
Defined.

Lemma connect_resets_witness :
  exists dev',
    proxy_open None None dev_west_only file_e = (0, dev')
    /\ east dev' = 100
    /\ ridx (webuf dev') = 5 /\ widx (webuf dev') = 5
    /\ cidx (ewbuf dev') = -1 /\ cidx (webuf dev') = -1
    /\ buf (ewbuf dev') = Some blk8 /\ buf (webuf dev') = Some blk8.
Proof.
  eexists. split; [reflexivity|].
  destruct (connect_resets None None dev_west_only file_e _ eq_refl)
    as (Hside & Hce & Hcw & _ & Hww & Hbe & Hbw & _).
  - left; reflexivity.
  - simpl in Hside. destruct Hside as (He & Hr & _).
    split; [exact He|]. split; [exact Hr|]. split; [exact Hww|].
    split; [exact Hce|]. split; [exact Hcw|].
    split; [exact (Hbe blk8 eq_refl)|exact (Hbw blk8 eq_refl)].
Defined.

Lemma zero_length_write_marks_witness :
  exists dev1 dev2,
    proxy_write 8 dev_abc file_e [] = (Ret 0, dev1)
    /\ proxy_write_wake 8 WakeUp dev_abc EW [] = (Ret 0, dev1)
    /\ cidx (ewbuf dev1) = 1 /\ east dev1 = 100 /\ nopen dev1 = 2
    /\ read_until_eof 8 4 dev1 file_w 2 = (abc, dev2)
    /\ proxy_read 8 dev2 file_w 2 = (Ret 0, dev2, []).
Proof.
  destruct (zero_length_write_marks 8 buffersize8 dev_abc file_e EW)
    as (Hw & Hwk & Hss & Hrd & _).
  - reflexivity.
  - reflexivity.
  - split; [split; simpl; lia|].
    exists blk_abc. split; reflexivity.
  - reflexivity.
  - destruct (Hrd file_w 2 4%nat eq_refl) as (dev2 & Hr1 & Hr2).
    { unfold INT_MAX; lia. }
    { vm_compute; lia. }
    eexists _, dev2.
    split; [exact Hw|]. split; [exact Hwk|]. split; [reflexivity|].
    split; [reflexivity|]. split; [reflexivity|].
    split; [exact Hr1|exact (Hr2 2)].
Defined.

Lemma write_read_roundtrip_witness :
  exists dev1 dev2,
    write_all 8 dev_pair6 file_e [[x41; x42]; [x43; x44; x45]]
    = ([Ret 2; Ret 3], dev1)
    /\ widx (ewbuf dev1) = 3
    /\ proxy_read 8 dev1 file_w 8 = (Ret 5, dev2, abcde).
Proof.
  destruct (write_read_roundtrip 8 buffersize8 dev_pair6 file_e file_w EW
              [[x41; x42]; [x43; x44; x45]] 8)
    as (dev1 & dev2 & Hw & Hr).
  - reflexivity.
  - reflexivity.
  - reflexivity.
  - split; [split; simpl; lia|].
    exists blk8. split; reflexivity.
  - reflexivity.
  - simpl; lia.
  - discriminate.
  - repeat constructor; discriminate.
  - simpl; lia.
  - simpl; unfold INT_MAX; lia.
  - exists dev1, dev2. split; [exact Hw|]. split; [|exact Hr].
    assert (dev1 = snd (write_all 8 dev_pair6 file_e
                          [[x41; x42]; [x43; x44; x45]])) as ->
      by (rewrite Hw; reflexivity).
    reflexivity.
Defined.

Lemma full_empty_detection_witness :
  exists dev1 dev2 dev3,
    write_all 8 dev_pair6 file_e [abc; [x44; x45; x46; x47]]
    = ([Ret 3; Ret 4], dev1)
    /\ is_full 8 (ewbuf dev1) = 1
    /\ proxy_write 8 dev1 file_e [x48] = (Sleeps, dev1)
    /\ proxy_read 8 dev1 file_w 1 = (Ret 1, dev2, [x41])
    /\ proxy_write 8 dev2 file_e [x48; x49] = (Ret 1, dev3).
Proof.
  destruct (full_empty_detection 8 buffersize8 dev_pair6 file_e file_w EW
              [abc; [x44; x45; x46; x47]])
    as (_ & dev1 & Hw & Hfull & Hblock & dev2 & c & Hr & Hc & Hone).
  - reflexivity.
  - reflexivity.
  - reflexivity.
  - split; [split; simpl; lia|].
    exists blk8. split; reflexivity.
  - reflexivity.
  - simpl; lia.
  - repeat constructor; discriminate.
  - reflexivity.
  - destruct (Hone [x48; x49]) as (dev3 & Hw3 & _);
      [simpl; unfold INT_MAX; lia|].
    injection Hc as <-.
    exists dev1, dev2, dev3.
    split; [exact Hw|]. split; [exact Hfull|].
    split; [apply Hblock; discriminate|].
    split; [exact Hr|exact Hw3].
Defined.


(** ** Where the claims as first stated fail *)

(** The sample devices are states of a running device: each one is what
    a few calls make of a freshly initialised minor. *)
Lemma samples_reached :
  let zeros n := repeat x00 n in
  let open1 := snd (proxy_open (Some blk8) (Some blk8) (px_init 0) file_e) in
  let open2 := snd (proxy_open None None open1 file_w) in
  let at6 := snd (fst (proxy_read 8 (snd (proxy_write 8 open2 file_e
                                             (zeros 6%nat))) file_w 6)) in
  let e2 := snd (fst (proxy_read 8 (snd (proxy_write 8 open2 file_e
                                             (zeros 2%nat))) file_w 2)) in
  let w5 := snd (fst (proxy_read 8 (snd (proxy_write 8 e2 file_w
                                             (zeros 5%nat))) file_e 3)) in
  open1 = dev_east_only
  /\ open2 = dev_pair
  /\ at6 = dev_pair6
  /\ snd (proxy_write 8 at6 file_e abc) = dev_abc
  /\ snd (proxy_release w5 file_e) = dev_west_only.
Proof. vm_compute. repeat split. Qed.

(** An open that fails for lack of memory has already counted itself:
    the open count is 1 with no side occupied, and after two such
    failures a third open is refused although both sides are free. *)
Lemma failed_open_is_counted :
  let dev1 := snd (proxy_open None None (px_init 0) file_e) in
  let dev2 := snd (proxy_open None None dev1 file_e) in
  nopen dev1 = 1 /\ east dev1 = 0 /\ west dev1 = 0
  /\ ~ sides_ok dev1
  /\ proxy_open (Some blk8) (Some blk8) dev2 file_e = (- EBUSY, dev2)
  /\ east dev2 = 0 /\ west dev2 = 0.
Proof.
  vm_compute. repeat split; try discriminate.
  intros [Hn _]. discriminate Hn.
Qed.

(** C1 as first stated fails when the sequence starts with a zero-length
    write: both writes are taken in full (3 bytes in all, at most 7), yet
    the read that asks for 3 bytes returns 0 and no byte, because the
    zero-length write has put the close marker on the read cursor. *)
Lemma roundtrip_lost_after_zero_length_write :
  fst (write_all 8 dev_pair file_e [[]; abc]) = [Ret 0; Ret 3]
  /\ concat [[]; abc] = abc
  /\ proxy_read 8 (snd (write_all 8 dev_pair file_e [[]; abc])) file_w 3
     = (Ret 0, snd (write_all 8 dev_pair file_e [[]; abc]), [])
  /\ snd (proxy_read 8 (snd (write_all 8 dev_pair file_e [[]; abc])) file_w 3)
     <> abc.
Proof. vm_compute. repeat split; discriminate. Qed.


(** C6 as first stated fails when memory is short: on a fresh device,
    with both sides free, an open whose buffer allocation fails returns
    -ENOMEM and stores the file in no side. *)
Lemma connect_fails_without_memory :
  east (px_init 0) = 0 /\ west (px_init 0) = 0
  /\ fst (proxy_open None None (px_init 0) file_e) = - ENOMEM
  /\ fst (proxy_open None None (px_init 0) file_e) <> 0
  /\ east (snd (proxy_open None None (px_init 0) file_e)) = 0
  /\ west (snd (proxy_open None None (px_init 0) file_e)) = 0.
Proof. vm_compute. repeat split; discriminate. Qed.


(** C7 as first stated fails for a reader that is already waiting: the
    reader has taken every byte and its blocking read sleeps; the writer
    then makes a zero-length write, which returns 0 and puts the close
    marker on the write cursor, where the read cursor already is.  The
    wake-up that ends the write finds [ridx = widx], so the sleeping read
    stays asleep and does not return 0; only a read made afterwards
    does. *)
Lemma soft_eof_missed_by_sleeping_reader :
  let s1 := snd (proxy_write 8 dev_pair file_e []) in
  snd (proxy_open None None
         (snd (proxy_open (Some blk8) (Some blk8) (px_init 0) file_e)) file_w)
  = dev_pair
  /\ inbound dev_pair file_w = Some EW
  /\ pending 8 (ewbuf dev_pair) = []
  /\ proxy_read 8 dev_pair file_w 4 = (Sleeps, dev_pair, [])
  /\ fst (proxy_write 8 dev_pair file_e []) = Ret 0
  /\ cidx (ewbuf s1) = widx (ewbuf s1)
  /\ ridx (ewbuf s1) = cidx (ewbuf s1)
  /\ east s1 = f_addr file_e /\ west s1 = f_addr file_w
  /\ proxy_read_wake 8 WakeUp s1 EW 4 = (Sleeps, s1, [])
  /\ fst (fst (proxy_read_wake 8 WakeUp s1 EW 4)) <> Ret 0
  /\ proxy_read 8 s1 file_w 4 = (Ret 0, s1, []).
Proof. vm_compute. repeat split; discriminate. Qed.

(** C5: poll reports writable to an endpoint that has no peer.  An open
    that finds no memory returns -ENOMEM with the open count already
    raised; the next open succeeds as the east side and brings the count
    to 2 although the west side is free.  The test [nopen == 2] of
    [proxy_poll] then holds, and with the buffer not full, no close
    marker at the write cursor and both access modes allowing it, poll
    reports the device writable to the only endpoint. *)
Theorem poll_writable_without_peer :
  let dev1 := snd (proxy_open None None (px_init 0) file_x) in
  let dev2 := snd (proxy_open (Some blk8) (Some blk8) dev1 file_e) in
  fst (proxy_open None None (px_init 0) file_x) = - ENOMEM
  /\ fst (proxy_open (Some blk8) (Some blk8) dev1 file_e) = 0
  /\ east dev2 = f_addr file_e /\ west dev2 = 0 /\ nopen dev2 = 2
  /\ peer dev2 file_e = 0
  /\ is_full 8 (ewbuf dev2) = 0
  /\ cidx (ewbuf dev2) <> widx (ewbuf dev2)
  /\ Z.land (f_flags file_e) O_ACCMODE <> O_RDONLY
  /\ Z.land (westaccmode dev2) O_ACCMODE <> O_WRONLY
  /\ writable (proxy_poll 8 dev2 file_e) = true
  /\ proxy_poll 8 dev2 file_e = Z.lor POLLOUT POLLWRNORM.
Proof. vm_compute. repeat split; discriminate. Qed.

(** C9: a non-blocking write made with no peer connected transfers data
    instead of returning -EWOULDBLOCK.  After an open that failed with
    -ENOMEM (open count raised, no side bound) a non-blocking file opens
    the device as the east side, which brings the count to 2 with the
    west side free; the wait test [nopen != 2] of [proxy_write] is then
    false, and a write of three bytes returns 3 and stores them. *)
Theorem nonblocking_write_without_peer :
  let dev1 := snd (proxy_open None None (px_init 0) file_x) in
  let dev2 := snd (proxy_open (Some blk8) (Some blk8) dev1 file_e_nb) in
  let dev3 := snd (proxy_write 8 dev2 file_e_nb abc) in
  fst (proxy_open None None (px_init 0) file_x) = - ENOMEM
  /\ fst (proxy_open (Some blk8) (Some blk8) dev1 file_e_nb) = 0
  /\ Z.land (f_flags file_e_nb) O_NONBLOCK <> 0
  /\ outbound dev2 file_e_nb = Some EW
  /\ east dev2 = f_addr file_e_nb /\ west dev2 = 0 /\ nopen dev2 = 2
  /\ peer dev2 file_e_nb = 0
  /\ proxy_write 8 dev2 file_e_nb abc = (Ret 3, dev3)
  /\ fst (proxy_write 8 dev2 file_e_nb abc) <> Ret (- EWOULDBLOCK)
  /\ pending 8 (ewbuf dev3) = abc.
Proof. vm_compute. repeat split; discriminate. Qed.

(** ** The further properties at work on the sample devices *)

Lemma read_transfer_witness :
  proxy_read 8 dev_abc file_w 2
  = (Ret 2, set_cirbuf dev_abc EW (set_ridx (ewbuf dev_abc) 0), [x41; x42])
  /\ pending 8 (set_ridx (ewbuf dev_abc) 0) = [x43].
Proof.
  destruct (read_transfer 8 buffersize8 dev_abc file_w EW 2)
    as (Hr & _ & _ & _ & Hp & _).
  - reflexivity.
  - split; [split; simpl; lia|].
    exists blk_abc. split; reflexivity.
  - simpl; lia.
  - simpl; lia.
  - unfold INT_MAX; lia.
  - split; [exact Hr|exact Hp].
Defined.

Lemma calls_keep_dev_ok_witness :
  dev_ok 8
    (run_calls 8 dev_abc
       [CWrite file_e abcde; CRead file_w 2; CWriteWake WakeUp WE abc;
        CRelease file_e; CPoll file_w; CReadWake WakeUp EW 8]).
Proof.
  apply (calls_keep_dev_ok 8 buffersize8).
  - split; [|split].
    + split; [split; simpl; lia|].
      exists blk_abc. split; reflexivity.
    + split; [split; simpl; lia|].
      exists blk8. split; reflexivity.
    + split; [reflexivity|simpl; lia].
  - vm_compute. lia.
  - repeat constructor; simpl; unfold INT_MAX; lia.
Defined.

Lemma fifo_order_witness :
  let ios := [IoRead 4; IoWrite abcde; IoReaderEvent WakeUp; IoWrite abcde;
              IoWrite abcde; IoWrite abc; IoRead 2; IoWriterEvent WakeUp;
              IoWriterEvent Signal; IoRead 8] in
  fst (run_io 8 dev_pair6 file_e file_w None None ios)
  = ([x41; x42; x43; x44; x45; x41; x42; x43; x44; x45; x41; x41; x42],
     [x41; x42; x43; x44; x45; x41; x42; x43; x44; x45; x41; x41; x42])
  /\ snd (fst (run_io 8 dev_pair6 file_e file_w None None ios))
     ++ pending 8
          (ewbuf (snd (run_io 8 dev_pair6 file_e file_w None None ios)))
     = pending 8 (ewbuf dev_pair6)
       ++ fst (fst (run_io 8 dev_pair6 file_e file_w None None ios)).
Proof.
  intros ios.
  destruct (fifo_order 8 buffersize8 ios dev_pair6 file_e file_w EW)
    as [Hq _].
  - reflexivity.
  - reflexivity.
  - split; [split; simpl; lia|].
    exists blk8. split; reflexivity.
  - repeat constructor; simpl; unfold INT_MAX; lia.
  - split; [vm_compute; reflexivity|exact Hq].
Defined.


Lemma open_keeps_dev_ok_witness :
  proxy_open None None dev_west_only file_e
  = (0, mkPx 0 (mkCirbuf (Some blk8) 2 2 (-1)) (mkCirbuf (Some blk8) 5 5 (-1))
             2 100 200 O_RDWR O_RDWR)
  /\ dev_ok 8 (snd (proxy_open None None dev_west_only file_e))
  /\ inbound (snd (proxy_open None None dev_west_only file_e)) file_e
     = Some WE
  /\ pending 8 (webuf dev_west_only) = [x00; x00]
  /\ pending 8 (webuf (snd (proxy_open None None dev_west_only file_e))) = [].
Proof.
  destruct (open_keeps_dev_ok 8 buffersize8 None None dev_west_only file_e
              (snd (proxy_open None None dev_west_only file_e)))
    as (Hok & Hin & Hp & _).
  - split; [reflexivity|simpl; lia].
  - split; simpl; lia.
  - split; simpl; lia.
  - intros m [H|H]; [injection H as <-; reflexivity|discriminate H].
  - intros m [H|H]; [injection H as <-; reflexivity|discriminate H].
  - simpl; lia.
  - simpl; lia.
  - simpl; lia.
  - reflexivity.
  - split; [reflexivity|]. split; [exact Hok|]. split; [exact Hin|].
    split; [reflexivity|exact Hp].
Defined.

Lemma sleeping_reader_misses_eof_witness :
  (exists dev1,
     proxy_release dev_pair file_e = (0, dev1)
     /\ (forall count, proxy_read 8 dev1 file_w count = (Ret 0, dev1, []))
     /\ (forall count,
           proxy_read_wake 8 WakeUp dev1 EW count = (Sleeps, dev1, [])))
  /\ exists dev2,
       proxy_write 8 dev_pair file_e [] = (Ret 0, dev2)
       /\ (forall count, proxy_read 8 dev2 file_w count = (Ret 0, dev2, []))
       /\ (forall count,
             proxy_read_wake 8 WakeUp dev2 EW count = (Sleeps, dev2, [])).
Proof.
  destruct (sleeping_reader_misses_eof 8 buffersize8 dev_pair file_e file_w EW)
    as [Hrel Hzero].
  - split; [reflexivity|simpl; lia].
  - simpl; lia.
  - simpl; lia.
  - reflexivity.
  - reflexivity.
  - split; [split; simpl; lia|].
    exists blk8. split; reflexivity.
  - reflexivity.
  - split; [exact Hrel|exact (Hzero eq_refl)].
Defined.

Lemma writes_wait_for_peer_witness :
  proxy_write 8 dev_east_only file_e abc = (Sleeps, dev_east_only)
  /\ proxy_write_wake 8 WakeUp dev_east_only EW abc = (Sleeps, dev_east_only)
  /\ exists dev1 dev2 dev3,
       proxy_open None None dev_east_only file_w = (0, dev1)
       /\ proxy_write_wake 8 WakeUp dev1 EW abc = (Ret 3, dev2)
       /\ pending 8 (ewbuf dev2) = abc
       /\ proxy_release dev1 file_w = (0, dev3)
       /\ proxy_write 8 dev3 file_e abc = (Sleeps, dev3).
Proof.
  apply (writes_wait_for_peer 8 buffersize8 None None dev_east_only file_e
           file_w EW abc).
  - split; [|split].
    + split; [split; simpl; lia|].
      exists blk8. split; reflexivity.
    + split; [split; simpl; lia|].
      exists blk8. split; reflexivity.
    + split; [reflexivity|simpl; lia].
  - simpl; lia.
  - reflexivity.
  - reflexivity.
  - simpl; lia.
  - simpl; lia.
  - simpl; unfold INT_MAX; lia.
Defined.

Lemma module_init_table_witness :
  px_devices
    (snd (proxy_init_module 3 (Some [dev_abc; dev_pair; dev_west_only])
            (0, 250) 0 module_start))
  = Some [px_init 0; px_init 1; px_init 2]
  /\ fst (proxy_init_module 3 (Some [dev_abc; dev_pair; dev_west_only])
            (0, 250) 0 module_start) = 0.
Proof.
  destruct (module_init_table 3 [dev_abc; dev_pair; dev_west_only]
              (0, 250) 0 module_start) as (Ht & _ & Hr & _).
  - lia.
  - reflexivity.
  - split; [exact Ht|]. apply Hr. simpl; lia.
Defined.

Lemma module_exit_frees_witness :
  proxy_exit_module 2 (mkModule (Some [dev_abc; px_init 1]) 250)
  = (mkModule None 250, [blk_abc; blk8])
  /\ proxy_exit_module 2 (mkModule None 250) = (mkModule None 250, []).
Proof.
  destruct (module_exit_frees 2 (mkModule (Some [dev_abc; px_init 1]) 250)
              [dev_abc; px_init 1]) as (Hx & Hy & _).
  - lia.
  - reflexivity.
  - reflexivity.
  - split; [exact Hx|exact Hy].
Defined.

Lemma first_open_after_init_witness :
  exists g2 devs2 dev,
    open_minor (Some blk8) (Some blk_abc)
      (snd (proxy_init_module 3 (Some [dev_abc; dev_pair; dev_west_only])
              (0, 250) 0 module_start))
      1 file_e
    = Some (0, g2)
    /\ px_devices g2 = Some devs2
    /\ devs2 !! Z.to_nat 1 = Some dev
    /\ dev = mkPx 1 (mkCirbuf (Some blk8) 0 0 (-1))
                  (mkCirbuf (Some blk_abc) 0 0 (-1))
                  1 (f_addr file_e) 0 (f_flags file_e) 0
    /\ dev_ok 8 dev
    /\ pending 8 (ewbuf dev) = [] /\ pending 8 (webuf dev) = []
    /\ (forall j, 0 <= j < 3 -> j <> 1 ->
          devs2 !! Z.to_nat j = Some (px_init j))
    /\ snd (proxy_exit_module 3 g2) = [blk8; blk_abc].
Proof.
  apply (first_open_after_init 8 buffersize8 3
           [dev_abc; dev_pair; dev_west_only] (0, 250) 0 module_start
           1 file_e blk8 blk_abc).
  - lia.
  - reflexivity.
  - lia.
  - simpl; lia.
  - reflexivity.
  - reflexivity.
Defined.

Lemma failed_open_is_kept_in_count_witness :
  exists dev',
    proxy_open (Some blk8) None (px_init 0) file_e = (- ENOMEM, dev')
    /\ nopen dev' = 1 /\ east dev' = 0 /\ west dev' = 0
    /\ ~ sides_ok dev'
    /\ forall m1 m2 f,
         exists dev2,
           proxy_open (Some m1) (Some m2) dev' f = (0, dev2)
           /\ east dev2 = f_addr f /\ west dev2 = 0 /\ nopen dev2 = 2
           /\ forall mem1 mem2 f',
                proxy_open mem1 mem2 dev2 f' = (- EBUSY, dev2).
Proof.
  apply (failed_open_is_kept_in_count (Some blk8) None (px_init 0) file_e).
  - split; [reflexivity|simpl; lia].
  - reflexivity.
  - right. split; reflexivity.
Defined.
